(** * RoomInvite.js and the asyncAction creator, embedded in Rocq

    The development follows the two source files of the repository:

    - [src/RoomInvite.js]: [_inviteToRoom], [isValid3pidInvite],
      [_getDirectMessageRooms] and [_selectDirectChat], then the dialog
      flows [_showAnyInviteErrors], [inviteMultipleToRoom],
      [_onRoomInviteFinished] and [_onStartChatFinished];
    - the action-creator file with [asyncAction].

    JavaScript objects used as dictionaries are [gmap string _]; mutable
    variables of a loop are threaded through a fold; a thrown exception is
    the [Throw] case of a result type; the global client singleton
    ([MatrixClientPeg.get()]) is passed explicitly. *)

From Stdlib Require Import ZArith String List Bool.
From stdpp Require Import gmap strings list fin_maps.

Local Open Scope Z_scope.
Local Open Scope string_scope.

(** ** JavaScript values, as far as the code inspects them *)

Module Js.

(** The values an event's content can carry.  [isValid3pidInvite] only
    looks at their truthiness. *)
Inductive value : Type :=
| Undefined
| Null
| Bool (b : bool)
| Num (n : Z)
| NaN
| Str (s : string)
| Obj.

(** ToBoolean of the language: the falsy values are [undefined], [null],
    [false], [0], [NaN] and the empty string. *)
Definition truthy (v : value) : bool :=
  match v with
  | Undefined | Null | NaN => false
  | Bool b => b
  | Num n => negb (n =? 0)%Z
  | Str s => negb (s =? "")
  | Obj => true
  end.

(** [o[k]] on a dictionary object: a missing key reads as [undefined]. *)
Definition get (o : gmap string value) (k : string) : value :=
  default Undefined (o !! k).

(** Outcome of a call that may throw. *)
Inductive result (X A : Type) : Type :=
| Return (a : A)
| Throw (x : X).
Arguments Return {X A} a.
Arguments Throw {X A} x.

Definition bind {X A B} (m : result X A) (k : A → result X B) : result X B :=
  match m with
  | Return a => k a
  | Throw x => Throw x
  end.

End Js.

Notation "'let!' x ':=' m 'in' k" := (Js.bind m (fun x => k))
  (at level 10, x name, m at level 100, k at level 200).

(** ** The SDK objects read by RoomInvite.js *)

(** The raw event, [matrixEvent.event]. *)
Record RawEvent := {
  type : string;
  content : gmap string Js.value;
  origin_server_ts : Z;
}.

Record MatrixEvent := { event : RawEvent }.

Definition getType (ev : MatrixEvent) : string := type (event ev).
Definition getContent (ev : MatrixEvent) : gmap string Js.value := content (event ev).

Record RoomMember := { membership : string }.

(** [room.currentState]: the member dictionary and the state events by type. *)
Record RoomState := {
  members : gmap string RoomMember;
  events : gmap string (list MatrixEvent);
}.

Definition getStateEvents (st : RoomState) (eventType : string) : list MatrixEvent :=
  default [] (events st !! eventType).

Record Room := {
  roomId : string;
  currentState : RoomState;
  selfMembership : string;
}.

Definition getMyMembership (r : Room) : string := selfMembership r.

(** What [MatrixClientPeg.get()] answers to the two queries of the selector. *)
Record MatrixClient := {
  getUserId : string;
  getRooms : list Room;
}.

(** ** isValid3pidInvite *)

Definition requiredKeys : list string :=
  ["key_validity_url"; "public_key"; "display_name"].

(** The [for] loop over [requiredKeys]: [false] at the first key whose
    value is falsy, [true] when the keys are exhausted. *)
Fixpoint checkRequiredKeys (ev : MatrixEvent) (keys : list string) : bool :=
  match keys with
  | [] => true
  | k :: rest =>
      if negb (Js.truthy (Js.get (getContent ev) k)) then false
      else checkRequiredKeys ev rest
  end.

(** The argument is [None] for a [null] or [undefined] event. *)
Definition isValid3pidInvite (ev : option MatrixEvent) : bool :=
  match ev with
  | None => false
  | Some e =>
      if negb (getType e =? "m.room.third_party_invite") then false
      else checkRequiredKeys e requiredKeys
  end.

(** ** _getDirectMessageRooms *)

(** [Object.keys(r.currentState.members)]. *)
Definition userIds (r : Room) : list string :=
  (map_to_list (members (currentState r))).*1.

Definition includes (l : list string) (x : string) : bool :=
  bool_decide (x ∈ l).

(** The callback of [rooms.filter]; falling off its end is falsy. *)
Definition isDirectMessageRoom (currentUserId addr : string) (r : Room) : bool :=
  let users := userIds r in
  if (length users =? 2)%nat && includes users addr && includes users currentUserId
  then true
  else false.

Definition _getDirectMessageRooms (cli : MatrixClient) (addr : string) : list Room :=
  let currentUserId := getUserId cli in
  let rooms := getRooms cli in
  List.filter (isDirectMessageRoom currentUserId addr) rooms.

(** ** _selectDirectChat *)

(** The object held by [selectedRoom]; each of its first three fields can
    be [null]. *)
Record Candidate := {
  room : option Room;
  status : option string;
  date : option Z;
  weight : Z;
}.

Definition noCandidate : Candidate :=
  {| room := None; status := None; date := None; weight := 0 |}.

Inductive exn : Type :=
| TypeError
| Error (message : string).

(** ToNumber on a [date] field: [null] compares as 0. *)
Definition dateToNumber (d : option Z) : Z := default 0 d.

(** The guard shared by the four ranked branches:
    [selectedRoom === null || selectedRoom.weight < w ||
     (selectedRoom.weight === w && roomCreateEventDate < selectedRoom.date)]. *)
Definition replaces (selectedRoom : option Candidate) (w roomCreateEventDate : Z) : bool :=
  match selectedRoom with
  | None => true
  | Some s =>
      (weight s <? w)%Z ||
      ((weight s =? w)%Z && (roomCreateEventDate <? dateToNumber (date s))%Z)
  end.

Definition roomCreateEventDateOf (r : Room) : Z :=
  let roomCreateEvent := getStateEvents (currentState r) "m.room.create" in
  match roomCreateEvent with
  | e :: _ => origin_server_ts (event e)
  | [] => 0
  end.

(** The body of the [forEach] callback: the new value of [selectedRoom],
    or the TypeError of reading [him.membership] on [undefined]. *)
Definition visitRoom (userId : string) (selectedRoom : option Candidate) (r : Room)
  : Js.result exn (option Candidate) :=
  let members := members (currentState r) in
  let! him := match members !! userId with
              | Some m => Js.Return m
              | None => Js.Throw TypeError
              end in
  let myMembership := getMyMembership r in
  let hisMembership := membership him in
  let roomCreateEventDate := roomCreateEventDateOf r in
  if (myMembership =? "join") && (hisMembership =? "join") then
    if replaces selectedRoom 4 roomCreateEventDate
    then Js.Return (Some {| room := Some r; status := Some "join-join";
                            date := Some roomCreateEventDate; weight := 4 |})
    else Js.Return selectedRoom
  else if (myMembership =? "invite") && (hisMembership =? "join") then
    if replaces selectedRoom 3 roomCreateEventDate
    then Js.Return (Some {| room := Some r; status := Some "invite-join";
                            date := Some roomCreateEventDate; weight := 3 |})
    else Js.Return selectedRoom
  else if (myMembership =? "join") && (hisMembership =? "invite") then
    if replaces selectedRoom 2 roomCreateEventDate
    then Js.Return (Some {| room := Some r; status := Some "join-invite";
                            date := Some roomCreateEventDate; weight := 2 |})
    else Js.Return selectedRoom
  else if (myMembership =? "join") && (hisMembership =? "leave") then
    if replaces selectedRoom 1 roomCreateEventDate
    then Js.Return (Some {| room := Some r; status := Some "join-leave";
                            date := Some roomCreateEventDate; weight := 1 |})
    else Js.Return selectedRoom
  else
    Js.Return (Some noCandidate).

(** [roomList.forEach]: the rooms in order, stopping at a throw. *)
Fixpoint forEachRoom (userId : string) (roomList : list Room)
    (selectedRoom : option Candidate) : Js.result exn (option Candidate) :=
  match roomList with
  | [] => Js.Return selectedRoom
  | r :: rest =>
      let! s := visitRoom userId selectedRoom r in
      forEachRoom userId rest s
  end.

(** The last assignment: the candidate when its three fields are non-null,
    [null] otherwise. *)
Definition finalSelection (selectedRoom : option Candidate)
  : Js.result exn (option Candidate) :=
  match selectedRoom with
  | None => Js.Throw TypeError
  | Some s =>
      if bool_decide (room s ≠ None) && bool_decide (status s ≠ None)
         && bool_decide (date s ≠ None)
      then Js.Return (Some s)
      else Js.Return None
  end.

(** The scan over an already filtered room list. *)
Definition selectAmong (userId : string) (roomList : list Room)
  : Js.result exn (option Candidate) :=
  let! s := forEachRoom userId roomList (Some noCandidate) in
  finalSelection s.

Definition _selectDirectChat (cli : MatrixClient) (userId : string)
  : Js.result exn (option Candidate) :=
  let roomList := _getDirectMessageRooms cli userId in
  selectAmong userId roomList.

(** ** _inviteToRoom *)

Section InviteToRoom.

(** [getAddressType] is imported from [./UserAddress]; it answers a type
    name or [null].  The client's two invite operations return a promise,
    whose type is left open. *)
Context {Promise : Type}.
Variable getAddressType : string → option string.
Variable inviteByEmail : string → string → Promise.
Variable invite : string → string → Promise.

Definition _inviteToRoom (roomId addr : string) : Js.result exn Promise :=
  let addrType := getAddressType addr in
  if bool_decide (addrType = Some "email") then
    Js.Return (inviteByEmail roomId addr)
  else if bool_decide (addrType = Some "mx-user-id") then
    Js.Return (invite roomId addr)
  else
    Js.Throw (Error "Unsupported address").

End InviteToRoom.

(** ** asyncAction *)

Module ActionCreators.

Section AsyncAction.

(** [Val] is the type of the values of the language that flow through the
    helper: what the promise resolves with, what it is rejected with, what
    a call throws.  [Store] is whatever state the dispatch function and the
    operation read and change. *)
Context {Val Store : Type}.
Variable undefined : Val.

(** The dispatched payloads: [{action}], [{action, result}], [{action, err}]. *)
Record Action := {
  action : string;
  result : option Val;
  err : option Val;
}.

(** A call of the dispatch function changes the store and returns or throws. *)
Definition Dispatch : Type := Action → Store → Store * Js.result Val unit.

(** How the promise returned by [fn()] ends: fulfilled, rejected, or never
    settled. *)
Inductive settlement : Type :=
| Fulfilled (v : Val)
| Rejected (e : Val)
| Pending.

(** A call [fn()] changes the store and returns a promise or throws. *)
Definition Operation : Type := Store → Store * Js.result Val settlement.

(** The store together with the record of the dispatch calls made so far,
    oldest first. *)
Record World := {
  dispatched : list Action;
  store : Store;
}.

Definition callDispatch (dispatch : Dispatch) (a : Action) (w : World)
  : World * Js.result Val unit :=
  let '(s, c) := dispatch a (store w) in
  ({| dispatched := dispatched w ++ [a]; store := s |}, c).

(** The promise of a handler that ran: fulfilled with what the handler
    returned ([undefined] for the two arrow functions), rejected with what
    it threw. *)
Definition settleHandler (c : Js.result Val unit) : settlement :=
  match c with
  | Js.Return _ => Fulfilled undefined
  | Js.Throw e => Rejected e
  end.

(** [p.then(onFulfilled)]: the handler runs on fulfilment; a rejection
    passes through. *)
Definition then_ (p : settlement) (onFulfilled : Val → World → World * Js.result Val unit)
    (w : World) : World * settlement :=
  match p with
  | Fulfilled v => let '(w', c) := onFulfilled v w in (w', settleHandler c)
  | Rejected e => (w, Rejected e)
  | Pending => (w, Pending)
  end.

(** [p.catch(onRejected)]: the handler runs on rejection; a fulfilment
    passes through. *)
Definition catch_ (p : settlement) (onRejected : Val → World → World * Js.result Val unit)
    (w : World) : World * settlement :=
  match p with
  | Rejected e => let '(w', c) := onRejected e w in (w', settleHandler c)
  | Fulfilled v => (w, Fulfilled v)
  | Pending => (w, Pending)
  end.

(** What the rest of the program does to the store between the return of
    the call and the moment the handlers run. *)
Variable meanwhile : Store → Store.

(** One invocation of the function returned by [asyncAction]: how the call
    itself ends, the world when it ends, and the world once the promise
    chain has run. *)
Record Invocation := {
  completion : Js.result Val unit;
  afterCall : World;
  afterSettle : World;
}.

Definition pendingAction (id : string) : Action :=
  {| action := id ++ ".pending"; result := None; err := None |}.
Definition successAction (id : string) (v : Val) : Action :=
  {| action := id ++ ".success"; result := Some v; err := None |}.
Definition failureAction (id : string) (e : Val) : Action :=
  {| action := id ++ ".failure"; result := None; err := Some e |}.

Definition asyncAction (id : string) (fn : Operation) (dispatch : Dispatch)
    (s0 : Store) : Invocation :=
  let w0 := {| dispatched := []; store := s0 |} in
  let '(w1, c1) := callDispatch dispatch (pendingAction id) w0 in
  match c1 with
  | Js.Throw e => {| completion := Js.Throw e; afterCall := w1; afterSettle := w1 |}
  | Js.Return _ =>
      let '(s2, r) := fn (store w1) in
      let w2 := {| dispatched := dispatched w1; store := s2 |} in
      match r with
      | Js.Throw e => {| completion := Js.Throw e; afterCall := w2; afterSettle := w2 |}
      | Js.Return p =>
          let w3 := {| dispatched := dispatched w2; store := meanwhile (store w2) |} in
          let '(w4, p1) :=
            then_ p (fun result => callDispatch dispatch (successAction id result)) w3 in
          let '(w5, _) :=
            catch_ p1 (fun err => callDispatch dispatch (failureAction id err)) w4 in
          {| completion := Js.Return tt; afterCall := w2; afterSettle := w5 |}
      end
  end.

End AsyncAction.

Arguments Action : clear implicits.
Arguments settlement : clear implicits.
Arguments Dispatch : clear implicits.
Arguments Operation : clear implicits.
Arguments World : clear implicits.
Arguments Invocation : clear implicits.

(** Sample collaborators over [Js.value], with a store that is not used. *)

Definition resolving (v : Js.value) : Operation Js.value unit :=
  λ s, (s, Js.Return (Fulfilled v)).

Definition rejecting (e : Js.value) : Operation Js.value unit :=
  λ s, (s, Js.Return (Rejected e)).

(** A dispatch function that always returns. *)
Definition quiet : Dispatch Js.value unit :=
  λ _ s, (s, Js.Return tt).

(** A dispatch function that throws [e] on the action named [name]. *)
Definition throwingOn (name : string) (e : Js.value) : Dispatch Js.value unit :=
  λ a s, if action a =? name then (s, Js.Throw e) else (s, Js.Return tt).

(** The helper run on the sample collaborators. *)
Definition run (id : string) (fn : Operation Js.value unit)
    (dispatch : Dispatch Js.value unit) : Invocation Js.value unit :=
  asyncAction Js.Undefined (λ s, s) id fn dispatch tt.

End ActionCreators.

(** ** Vocabulary of the statements *)

(** The target's membership in a room, when the room has an entry for it. *)
Definition hisMembershipIn (userId : string) (r : Room) : option string :=
  membership <$> members (currentState r) !! userId.

(** Both sides joined: the first branch of the scan. *)
Definition mutualJoin (userId : string) (r : Room) : Prop :=
  getMyMembership r = "join" ∧ hisMembershipIn userId r = Some "join".

(** The candidate the first branch builds from a room. *)
Definition joinJoinCandidate (r : Room) : Candidate :=
  {| room := Some r; status := Some "join-join";
     date := Some (roomCreateEventDateOf r); weight := 4 |}.

(** The membership pair is one of the four that the scan ranks. *)
Definition rankedPair (mine his : string) : bool :=
  ((mine =? "join") && (his =? "join")) ||
  ((mine =? "invite") && (his =? "join")) ||
  ((mine =? "join") && (his =? "invite")) ||
  ((mine =? "join") && (his =? "leave")).

(** The four status labels with their weights. *)
Definition ranked (st : option string) (w : Z) : Prop :=
  (st = Some "join-join" ∧ w = 4%Z) ∨
  (st = Some "invite-join" ∧ w = 3%Z) ∨
  (st = Some "join-invite" ∧ w = 2%Z) ∨
  (st = Some "join-leave" ∧ w = 1%Z).

(** A candidate built from a room of [L] by one of the ranked branches. *)
Definition accepted (L : list Room) (c : Candidate) : Prop :=
  ∃ r, room c = Some r ∧ r ∈ L ∧
       date c = Some (roomCreateEventDateOf r) ∧
       ranked (status c) (weight c).

(** What [selectedRoom] can hold during the scan of rooms of [L]: the
    all-null object, or an accepted candidate. It is never [null]. *)
Definition scanning (L : list Room) (s : option Candidate) : Prop :=
  s = Some noCandidate ∨ ∃ c, s = Some c ∧ accepted L c.

(** ** Sample rooms *)

Module Sample.

Definition alice : string := "@alice:example.org".
Definition bob : string := "@bob:example.org".
Definition carol : string := "@carol:example.org".

Definition createEvent (ts : Z) : MatrixEvent :=
  {| event := {| type := "m.room.create"; content := ∅; origin_server_ts := ts |} |}.

(** A room seen by alice, with the given member entries. *)
Definition roomOf (id mine : string) (entries : list (string * string)) (ts : Z) : Room :=
  {| roomId := id;
     currentState :=
       {| members := list_to_map (map (λ e, (e.1, {| membership := e.2 |})) entries);
          events := {[ "m.room.create" := [createEvent ts] ]} |};
     selfMembership := mine |}.

Definition joined : Room :=
  roomOf "!joined:example.org" "join" [(alice, "join"); (bob, "join")] 100.
Definition joinedLater : Room :=
  roomOf "!later:example.org" "join" [(alice, "join"); (bob, "join")] 200.
Definition bothLeft : Room :=
  roomOf "!left:example.org" "leave" [(alice, "leave"); (bob, "leave")] 300.
Definition group : Room :=
  roomOf "!group:example.org" "join"
    [(alice, "join"); (bob, "join"); (carol, "join")] 50.

Definition clientWith (rooms : list Room) : MatrixClient :=
  {| getUserId := alice; getRooms := rooms |}.

(** Stand-ins for the address classifier and for the client's two invite
    operations, which answer with the name of the operation and its
    arguments. *)
Definition addressType (addr : string) : option string :=
  if addr =? "bob@example.org" then Some "email"
  else if addr =? bob then Some "mx-user-id"
  else if addr =? "#lobby:example.org" then Some "mx-room-id"
  else None.

Definition byEmail (roomId addr : string) : string * string * string :=
  ("inviteByEmail", roomId, addr).
Definition byUserId (roomId addr : string) : string * string * string :=
  ("invite", roomId, addr).

End Sample.

(** ** Vocabulary for whole scans *)

(** The weight of the branch that [visitRoom] takes for a membership pair;
    0 stands for the final [else]. *)
Definition pairWeight (mine his : string) : Z :=
  if (mine =? "join") && (his =? "join") then 4
  else if (mine =? "invite") && (his =? "join") then 3
  else if (mine =? "join") && (his =? "invite") then 2
  else if (mine =? "join") && (his =? "leave") then 1
  else 0.

(** The status label of that branch. *)
Definition pairStatus (mine his : string) : option string :=
  if (mine =? "join") && (his =? "join") then Some "join-join"
  else if (mine =? "invite") && (his =? "join") then Some "invite-join"
  else if (mine =? "join") && (his =? "invite") then Some "join-invite"
  else if (mine =? "join") && (his =? "leave") then Some "join-leave"
  else None.

Definition roomWeight (userId : string) (r : Room) : Z :=
  match members (currentState r) !! userId with
  | Some him => pairWeight (getMyMembership r) (membership him)
  | None => 0
  end.

Definition roomStatus (userId : string) (r : Room) : option string :=
  match members (currentState r) !! userId with
  | Some him => pairStatus (getMyMembership r) (membership him)
  | None => None
  end.

(** The candidate that a ranked branch builds from a room. *)
Definition candidateOf (userId : string) (r : Room) : Candidate :=
  {| room := Some r; status := roomStatus userId r;
     date := Some (roomCreateEventDateOf r); weight := roomWeight userId r |}.

(** [r] is preferred to [r']: a higher weight, or the same weight and an
    earlier creation date. *)
Definition preferred (userId : string) (r r' : Room) : Prop :=
  (roomWeight userId r' < roomWeight userId r)%Z ∨
  (roomWeight userId r' = roomWeight userId r ∧
   (roomCreateEventDateOf r < roomCreateEventDateOf r')%Z).

(** [r] at its place in [l] is the first of the most preferred rooms: it is
    preferred to every room before it, and no room after it is preferred to
    it. *)
Definition firstBest (userId : string) (l : list Room) (r : Room) : Prop :=
  ∃ before after,
    l = (before ++ r :: after)%list ∧
    (∀ r', r' ∈ before → preferred userId r r') ∧
    (∀ r', r' ∈ after → ¬ preferred userId r' r).

(** The state of the scan after the rooms of [l], all ranked: the all-null
    object before any room, the candidate of the first best room after. *)
Definition bestSoFar (userId : string) (l : list Room) (s : option Candidate) : Prop :=
  (l = [] ∧ s = Some noCandidate) ∨
  (∃ r, s = Some (candidateOf userId r) ∧ firstBest userId l r ∧
        (0 < roomWeight userId r)%Z).

(** ** More sample operations for asyncAction *)

Module ActionSamples.

Import ActionCreators.

(** An operation that throws before it returns a promise. *)
Definition throwing (e : Js.value) : Operation Js.value unit :=
  λ s, (s, Js.Throw e).

(** An operation whose promise never settles. *)
Definition hanging : Operation Js.value unit :=
  λ s, (s, Js.Return Pending).

End ActionSamples.

(** ** The dialog flows of RoomInvite.js *)

Module InviteFlows.

(** An entry of the list that the address picker hands over: the fields
    read are [address], [addressType] and [isKnown], the last one possibly
    absent. *)
Record Address := {
  address : string;
  addressType : string;
  isKnown : option bool;
}.

(** A rejection reason or a thrown value, as far as the handlers look at
    it: [null] or [undefined], or an object with its [message] if any. *)
Inductive errval : Type :=
| ErrNull
| ErrObj (msg : option string).

(** How a promise of a collaborator ends. *)
Inductive promise (A : Type) : Type :=
| Resolved (a : A)
| Failed (err : errval)
| Unsettled.
Arguments Resolved {A} a.
Arguments Failed {A} err.
Arguments Unsettled {A}.

(** [Modal.createTrackedDialog(analyticsAction, analyticsInfo, Element,
    {title, description})]; the element is named as in [sdk.getComponent],
    and an [undefined] description is [None]. *)
Record TrackedDialog := {
  analyticsAction : string;
  analyticsInfo : string;
  element : string;
  title : string;
  description : option string;
}.

(** The calls on the collaborators, in the order they are made. *)
Inductive effect : Type :=
| Dialog (d : TrackedDialog)
| ViewRoom (room_id : string)
| LookupThreePid (medium addr : string)
| JoinRoom (room_id : string)
| InviteByEmail (room_id addr : string)
| Invite (room_id addr : string)
| CreateRoom (dmUserId : string)
| MultiInvite (room_id : string) (addrs : list string)
| ConsoleError.

(** The MultiInviter object, as read by [_showAnyInviteErrors]. *)
Record Inviter := {
  fatal : bool;
  getErrorText : string → option string;
}.

(** [Object.keys(o)] and [o[k]] on an object given by its own properties in
    key order. *)
Definition keys (o : list (string * string)) : list string := o.*1.

Fixpoint prop (o : list (string * string)) (k : string) : option string :=
  match o with
  | [] => None
  | (k', v) :: rest => if k' =? k then Some v else prop rest k
  end.

(** ToString of a value that is a string or [undefined]. *)
Definition toString (v : option string) : string := default "undefined" v.

Section Flows.

(** Collaborators that are not under the source tree: the translation
    function with its substitution variables, the [name] property of a
    room, the string that the [br] element given to [join] converts to,
    the address classifier, the message of the engine's TypeError, and the
    client: its room lookup and the outcome of its promises. *)
Variable _t : string → list (string * string) → string.
Variable name : Room → string.
Variable br : string.
Variable getAddressType : string → option string.
Variable typeErrorMessage : string.
Variable cli : MatrixClient.
Variable getRoom : string → option Room.
Variable lookupThreePid : string → string → promise (gmap string Js.value).
Variable joinRoom : string → promise unit.
Variable createRoom : string → promise unit.
Variable multiInvite :
  string → list string → Js.result errval (promise (list (string * string))).
Variable inviterAfter : string → list string → Inviter.

Definition errorDialog (action title : string) (description : option string) : effect :=
  Dialog {| analyticsAction := action; analyticsInfo := "";
            element := "dialogs.ErrorDialog";
            title := title; description := description |}.

(** [(err && err.message) ? err.message : _t("Operation failed")]. *)
Definition errorText (err : errval) : string :=
  match err with
  | ErrObj (Some m) => if negb (m =? "") then m else _t "Operation failed" []
  | _ => _t "Operation failed" []
  end.

(** A thrown exception seen as a rejection reason. *)
Definition thrown (x : exn) : errval :=
  match x with
  | TypeError => ErrObj (Some typeErrorMessage)
  | Error m => ErrObj (Some m)
  end.

(** *** _showAnyInviteErrors *)

Definition failedUsersOf (addrs : list (string * string)) : list string :=
  List.filter (λ a, bool_decide (prop addrs a = Some "error")) (keys addrs).

(** The [for ... of] loop that fills [errorList]. *)
Fixpoint collectErrors (addrs : list (string * string)) (inviter : Inviter)
    (failedUsers : list string) (errorList : list string) : list string :=
  match failedUsers with
  | [] => errorList
  | addr :: rest =>
      if bool_decide (prop addrs addr = Some "error") then
        let reason := getErrorText inviter addr in
        collectErrors addrs inviter rest
          (errorList ++ [(addr ++ ": " ++ toString reason)%string])%list
      else collectErrors addrs inviter rest errorList
  end.

(** [room.name], a TypeError on a [null] room. *)
Definition roomName (room : option Room) : Js.result exn string :=
  match room with
  | Some r => Js.Return (name r)
  | None => Js.Throw TypeError
  end.

(** The dialogs shown and the returned value, or the exception.  In the
    first branch [failedUsers] has one element, which is [failedUsers[0]]. *)
Definition _showAnyInviteErrors (addrs : list (string * string))
    (room : option Room) (inviter : Inviter)
  : Js.result exn (list effect * list (string * string)) :=
  let failedUsers := failedUsersOf addrs in
  let! shown :=
    if (length failedUsers =? 1)%nat && fatal inviter then
      let! roomName := roomName room in
      Js.Return
        [errorDialog "Failed to invite users to the room"
           (_t "Failed to invite users to the room:" [("roomName", roomName)])
           (head failedUsers ≫= getErrorText inviter)]
    else
      let errorList := collectErrors addrs inviter failedUsers [] in
      if (0 <? length errorList)%nat then
        let! roomName := roomName room in
        Js.Return
          [errorDialog "Failed to invite the following users to the room"
             (_t "Failed to invite the following users to the %(roomName)s room:"
                 [("roomName", roomName)])
             (Some (String.concat br errorList))]
      else Js.Return []
  in
  Js.Return (shown, addrs).

(** *** inviteMultipleToRoom and _onRoomInviteFinished *)

(** [new MultiInviter(roomId)] and [inviter.invite(addrs)], with the states
    paired with the inviter once the promise resolves. *)
Definition inviteMultipleToRoom (roomId : string) (addrs : list string)
  : Js.result errval (promise (list (string * string) * Inviter)) :=
  match multiInvite roomId addrs with
  | Js.Return (Resolved states) =>
      Js.Return (Resolved (states, inviterAfter roomId addrs))
  | Js.Return (Failed err) => Js.Return (Failed err)
  | Js.Return Unsettled => Js.Return Unsettled
  | Js.Throw e => Js.Throw e
  end.

(** The [catch] handler of [_onRoomInviteFinished]; reading [err.stack] on
    a [null] reason throws before anything is shown. *)
Definition failedToInvite (err : errval) : list effect :=
  match err with
  | ErrNull => []
  | ErrObj _ =>
      [ConsoleError;
       errorDialog "Failed to invite" (_t "Failed to invite" [])
         (Some (errorText err))]
  end.

(** The calls made, in order, and how the call itself ends. *)
Definition _onRoomInviteFinished (roomId : string) (shouldInvite : bool)
    (addrs : list Address) : list effect * Js.result errval unit :=
  if negb shouldInvite then ([], Js.Return tt)
  else
    let addrTexts := map address addrs in
    match inviteMultipleToRoom roomId addrTexts with
    | Js.Throw e => ([MultiInvite roomId addrTexts], Js.Throw e)
    | Js.Return p =>
        let settled :=
          match p with
          | Resolved result =>
              let room := getRoom roomId in
              match _showAnyInviteErrors result.1 room result.2 with
              | Js.Return shown => shown.1
              | Js.Throw x => failedToInvite (thrown x)
              end
          | Failed err => failedToInvite err
          | Unsettled => []
          end in
        (MultiInvite roomId addrTexts :: settled, Js.Return tt)
    end.

(** *** _onStartChatFinished *)

Definition failedToInviteUser (err : errval) : effect :=
  errorDialog "Failed to invite user" (_t "Failed to invite user" [])
    (Some (errorText err)).

(** [_selectDirectChat(invitedUserId)] on a value: a value that is not a
    string is no key of any member dictionary ([users.includes] is false),
    so the filter keeps no room and the answer is [null]. *)
Definition selectDirectChatOf (invitedUserId : Js.value)
  : Js.result exn (option Candidate) :=
  match invitedUserId with
  | Js.Str userId => _selectDirectChat cli userId
  | _ => Js.Return None
  end.

(** [selectedRoom.room.roomId]. *)
Definition selectedRoomId (selectedRoom : option Candidate) : Js.result exn string :=
  match selectedRoom with
  | Some c =>
      match room c with
      | Some r => Js.Return (roomId r)
      | None => Js.Throw TypeError
      end
  | None => Js.Throw TypeError
  end.

(** The [switch] on the status of the selected room. *)
Definition startChatIn (addrTexts : string) (selectedRoom : option Candidate)
  : Js.result exn (list effect) :=
  let roomStatus :=
    match selectedRoom with Some c => status c | None => None end in
  if bool_decide (roomStatus = Some "join-join") then
    let! room_id := selectedRoomId selectedRoom in
    Js.Return [ViewRoom room_id]
  else if bool_decide (roomStatus = Some "invite-join") then
    let! room_id := selectedRoomId selectedRoom in
    Js.Return
      (JoinRoom room_id ::
       match joinRoom room_id with
       | Resolved _ => [ViewRoom room_id]
       | Failed err =>
           [errorDialog "Failed to join room" (_t "Failed to join room" [])
              (Some (errorText err))]
       | Unsettled => []
       end)
  else if bool_decide (roomStatus = Some "join-invite") then
    let! room_id := selectedRoomId selectedRoom in
    Js.Return [ViewRoom room_id]
  else if bool_decide (roomStatus = Some "join-leave") then
    let! room_id := selectedRoomId selectedRoom in
    let! call := _inviteToRoom getAddressType InviteByEmail Invite room_id addrTexts in
    Js.Return [call; ViewRoom room_id]
  else
    Js.Return
      (CreateRoom addrTexts ::
       match createRoom addrTexts with
       | Failed err => [failedToInviteUser err]
       | _ => []
       end).

(** The callback given to [then] on the lookup, with the [catch] handler
    that follows it. *)
Definition onLookupSettled (addrTexts : string)
    (outcome : promise (gmap string Js.value)) : list effect :=
  match outcome with
  | Resolved res =>
      let invitedUserId :=
        if (size res =? 0)%nat then Js.Str addrTexts else Js.get res "mxid" in
      match (let! selectedRoom := selectDirectChatOf invitedUserId in
             startChatIn addrTexts selectedRoom) with
      | Js.Return made => made
      | Js.Throw x => [failedToInviteUser (thrown x)]
      end
  | Failed err => [failedToInviteUser err]
  | Unsettled => []
  end.

(** The calls made, in order.  The three constants read from [addrs] are
    those of its first entry, and [undefined] when there is none. *)
Definition _onStartChatFinished (shouldInvite : bool) (addrs : list Address)
  : list effect :=
  if negb shouldInvite then []
  else
    match head addrs with
    | Some a =>
        let addrTexts := address a in
        let addrType := addressType a in
        let addrKnown := isKnown a in
        if bool_decide (addrKnown = Some true) then
          LookupThreePid addrType addrTexts ::
          onLookupSettled addrTexts (lookupThreePid addrType addrTexts)
        else if bool_decide (addrKnown = Some false) && (addrType =? "email") then
          []
        else
          [errorDialog "Failed to invite user" (_t "Failed to invite user" [])
             (Some (_t "Operation failed" []))]
    | None =>
        [errorDialog "Failed to invite user" (_t "Failed to invite user" [])
           (Some (_t "Operation failed" []))]
    end.

End Flows.

End InviteFlows.

(** ** Vocabulary for the dialog flows *)

Module InviteFlowTerms.

Import InviteFlows.

(** The entries of the states object that are in the error state. *)
Definition failedEntries (addrs : list (string * string)) : list (string * string) :=
  List.filter (λ e, bool_decide (e.2 = "error")) addrs.

(** The line of the error list for one address. *)
Definition errorLine (inviter : Inviter) (addr : string) : string :=
  addr ++ ": " ++ toString (getErrorText inviter addr).

(** The user id that the lookup callback hands to the selector. *)
Definition invitedUserIdOf (addrTexts : string) (res : gmap string Js.value) : Js.value :=
  if (size res =? 0)%nat then Js.Str addrTexts else Js.get res "mxid".

End InviteFlowTerms.

(** ** Proof steps *)

(** Closes a goal from [H : x ∈ [a; b; ...]] when [x] differs from every
    listed element by its constructor. *)
Ltac absent_from_list H :=
  repeat (apply elem_of_cons in H as [H|H]; [discriminate H|]);
  by apply elem_of_nil in H.

(** ** Sample collaborators for the dialog flows *)

Module FlowSamples.

Import InviteFlows.

(** A translation that leaves the text as it is. *)
Definition plain (text : string) (vars : list (string * string)) : string := text.

Definition objectText : string := "[object Object]".
Definition typeErrorText : string := "Cannot read property 'name' of null".

Definition noRoom : string → option Room := λ _, None.

Definition allInvited : list (string * string) :=
  [(Sample.bob, "invited"); (Sample.carol, "invited")].
Definition oneFailed : list (string * string) :=
  [(Sample.bob, "invited"); (Sample.carol, "error")].
Definition twoFailed : list (string * string) :=
  [(Sample.bob, "error"); ("dave@example.org", "invited"); (Sample.carol, "error")].

Definition inviterWith (isFatal : bool) : Inviter :=
  {| fatal := isFatal;
     getErrorText := λ a,
       if a =? Sample.carol then Some "User not found"
       else if a =? Sample.bob then Some "Not allowed"
       else None |}.

Definition batch (states : list (string * string))
  : string → list string → Js.result errval (promise (list (string * string))) :=
  λ _ _, Js.Return (Resolved states).

Definition picked (addr ty : string) (known : option bool) : Address :=
  {| address := addr; addressType := ty; isKnown := known |}.

(** Lookups that find nothing, and that find bob. *)
Definition noMatch : string → string → promise (gmap string Js.value) :=
  λ _ _, Resolved ∅.
Definition bobRecord (medium addr : string) : gmap string Js.value :=
  {[ "medium" := Js.Str medium; "address" := Js.Str addr;
     "mxid" := Js.Str Sample.bob ]}.
Definition findsBob : string → string → promise (gmap string Js.value) :=
  λ medium addr, Resolved (bobRecord medium addr).

Definition succeeds : string → promise unit := λ _, Resolved tt.

(** A room to which alice is invited by bob, and one that bob has left. *)
Definition invitedByBob : Room :=
  Sample.roomOf "!invited:example.org" "invite"
    [(Sample.alice, "invite"); (Sample.bob, "join")] 10.
Definition bobLeft : Room :=
  Sample.roomOf "!gone:example.org" "join"
    [(Sample.alice, "join"); (Sample.bob, "leave")] 20.

End FlowSamples.

(** ** Two-party rooms *)

(** The member dictionary of [r] has exactly two entries, one for the
    target and the other for the caller. *)
Definition exactPair (target caller : string) (r : Room) : Prop :=
  size (members (currentState r)) = 2%nat ∧
  dom (members (currentState r)) = ({[target; caller]} : gset string).

Module PairSamples.

(** A room of alice and carol, both joined. *)
Definition withCarol : Room :=
  Sample.roomOf "!carol:example.org" "join"
    [(Sample.alice, "join"); (Sample.carol, "join")] 400.

End PairSamples.

(** * Properties *)

(** ** The filter of _getDirectMessageRooms *)

Section DirectMessageRooms.

Implicit Types (r : Room) (cli : MatrixClient) (addr userId : string).

Lemma userIds_member r (x : string) :
  x ∈ userIds r ↔ is_Some (members (currentState r) !! x).
Proof.
  unfold userIds. rewrite list_elem_of_fmap. split.
  - intros [[k m] [-> Hin]]. apply elem_of_map_to_list in Hin. simpl. eauto.
  - intros [m Hm]. exists (x, m). split; [reflexivity|].
    by apply elem_of_map_to_list.
Qed.

Lemma userIds_in_dom r (x : string) :
  x ∈ userIds r ↔ x ∈ dom (members (currentState r)).
Proof. rewrite userIds_member. symmetry. apply elem_of_dom. Qed.

Lemma userIds_length r : length (userIds r) = size (members (currentState r)).
Proof. unfold userIds. rewrite length_fmap. apply length_map_to_list. Qed.

(** The callback answers true exactly on the rooms of two members that
    hold both identifiers. *)
Lemma isDirectMessageRoom_true me addr r :
  isDirectMessageRoom me addr r = true ↔
  size (members (currentState r)) = 2%nat ∧
  addr ∈ dom (members (currentState r)) ∧
  me ∈ dom (members (currentState r)).
Proof.
  unfold isDirectMessageRoom, includes. cbv zeta.
  rewrite <- userIds_length, <- !userIds_in_dom.
  destruct (length (userIds r) =? 2)%nat eqn:Hlen; simpl.
  - apply Nat.eqb_eq in Hlen.
    repeat case_bool_decide; simpl; split; try done; tauto.
  - apply Nat.eqb_neq in Hlen. split; [done|]. tauto.
Qed.

Lemma getDirectMessageRooms_member cli addr r :
  r ∈ _getDirectMessageRooms cli addr ↔
  r ∈ getRooms cli ∧ isDirectMessageRoom (getUserId cli) addr r = true.
Proof.
  unfold _getDirectMessageRooms. cbv zeta.
  rewrite !list_elem_of_In. apply filter_In.
Qed.

(** Every room that passes the filter has a member entry for the target,
    so [him.membership] never reads [undefined]. *)
Lemma getDirectMessageRooms_has_target cli addr r :
  r ∈ _getDirectMessageRooms cli addr →
  is_Some (members (currentState r) !! addr).
Proof.
  rewrite getDirectMessageRooms_member, isDirectMessageRoom_true.
  intros (_ & _ & Hin & _). by apply elem_of_dom.
Qed.

(** With two distinct identifiers, the kept rooms are those whose member
    set is the pair itself. *)
Lemma isDirectMessageRoom_pair me addr r :
  me ≠ addr →
  isDirectMessageRoom me addr r = true ↔
  dom (members (currentState r)) = ({[addr; me]} : gset string).
Proof.
  intros Hne. rewrite isDirectMessageRoom_true, <- size_dom.
  set (D := dom (members (currentState r))).
  assert (Hdisj : ({[addr]} : gset string) ## {[me]}).
  { apply disjoint_singleton_l. intros Hin. apply elem_of_singleton in Hin.
    by apply Hne. }
  split.
  - intros (Hsz & Ha & Hm). symmetry. apply set_subseteq_size_eq.
    + apply union_subseteq. by rewrite !singleton_subseteq_l.
    + rewrite Hsz, size_union, !size_singleton by exact Hdisj. lia.
  - intros ->. rewrite size_union, !size_singleton by exact Hdisj.
    rewrite !elem_of_union, !elem_of_singleton. tauto.
Qed.

(** The test of the filter, as written: a room of three or more members
    never passes, whatever the membership states of its members; the rooms
    that pass are the client's rooms with two member entries among which
    are the target and the caller (one entry can be both). *)
Theorem getDirectMessageRooms_two_party_only cli addr r :
  (3 ≤ size (members (currentState r)) → r ∉ _getDirectMessageRooms cli addr)%nat ∧
  (r ∈ _getDirectMessageRooms cli addr ↔
     r ∈ getRooms cli ∧
     size (members (currentState r)) = 2%nat ∧
     addr ∈ dom (members (currentState r)) ∧
     getUserId cli ∈ dom (members (currentState r))).
Proof.
  rewrite getDirectMessageRooms_member, isDirectMessageRoom_true. split.
  - intros Hthree (_ & Htwo & _). lia.
  - reflexivity.
Qed.

Lemma getDirectMessageRooms_two_party_only_sample :
  (Sample.group ∉ _getDirectMessageRooms
                    (Sample.clientWith [Sample.group; Sample.joined]) Sample.bob) ∧
  (Sample.joined ∈ _getDirectMessageRooms
                     (Sample.clientWith [Sample.group; Sample.joined]) Sample.bob).
Proof.
  split.
  - apply (getDirectMessageRooms_two_party_only
             (Sample.clientWith [Sample.group; Sample.joined]) Sample.bob
             Sample.group).
    vm_compute. lia.
  - apply (getDirectMessageRooms_two_party_only
             (Sample.clientWith [Sample.group; Sample.joined]) Sample.bob
             Sample.joined).
    split; [right; left|].
    split; [vm_compute; reflexivity|].
    split; apply elem_of_dom; vm_compute; eauto.
Defined.

End DirectMessageRooms.

(** ** The scan of _selectDirectChat *)

Section SelectDirectChat.

Implicit Types (r : Room) (cli : MatrixClient) (userId : string)
  (s : option Candidate) (c : Candidate) (L l : list Room).

Lemma scanning_init L : scanning L (Some noCandidate).
Proof. by left. Qed.

Lemma visitRoom_scanning L userId s r :
  r ∈ L →
  is_Some (members (currentState r) !! userId) →
  scanning L s →
  ∃ s', visitRoom userId s r = Js.Return s' ∧ scanning L s'.
Proof.
  intros Hin [him Hhim] Hs. unfold visitRoom. cbv zeta. rewrite Hhim. simpl.
  assert (Hnew : ∀ st w, ranked (Some st) w →
            scanning L (Some {| room := Some r; status := Some st;
                                date := Some (roomCreateEventDateOf r);
                                weight := w |})).
  { intros st w Hr. right. eexists. split; [reflexivity|]. exists r. by simpl. }
  repeat match goal with
  | |- context [if ?b && ?b' then _ else _] =>
      destruct (b && b');
      [ destruct (replaces s _ _);
        [ eexists; split; [reflexivity|]; apply Hnew; unfold ranked; tauto
        | eexists; split; [reflexivity|]; exact Hs ]
      | ]
  end.
  eexists. split; [reflexivity|]. apply scanning_init.
Qed.

Lemma forEachRoom_scanning L userId l s :
  (∀ r, r ∈ l → r ∈ L ∧ is_Some (members (currentState r) !! userId)) →
  scanning L s →
  ∃ s', forEachRoom userId l s = Js.Return s' ∧ scanning L s'.
Proof.
  revert s. induction l as [|r l IH]; intros s Hl Hs; simpl.
  - eauto.
  - destruct (Hl r) as [HrL Hhim]; [by left|].
    destruct (visitRoom_scanning L userId s r HrL Hhim Hs) as (s1 & -> & Hs1).
    simpl. apply IH; [|exact Hs1].
    intros r' Hr'. apply Hl. by right.
Qed.

Lemma finalSelection_scanning L s :
  scanning L s →
  finalSelection s = Js.Return None ∨
  ∃ c, finalSelection s = Js.Return (Some c) ∧ accepted L c.
Proof.
  intros [-> | (c & -> & Hc)].
  - by left.
  - right. exists c. split; [|exact Hc].
    destruct Hc as (r & Hroom & _ & Hdate & Hrank).
    unfold finalSelection. rewrite Hroom, Hdate.
    destruct Hrank as [[-> _]|[[-> _]|[[-> _]|[-> _]]]]; reflexivity.
Qed.

(** C9: _selectDirectChat returns without throwing, and what it returns is
    either [null] or a candidate whose room is one of the filtered rooms,
    whose date is not null, and whose status and weight are one of
    join-join/4, invite-join/3, join-invite/2, join-leave/1. *)
Theorem selectDirectChat_null_or_ranked cli userId :
  _selectDirectChat cli userId = Js.Return None ∨
  ∃ c r,
    _selectDirectChat cli userId = Js.Return (Some c) ∧
    room c = Some r ∧ r ∈ _getDirectMessageRooms cli userId ∧
    date c ≠ None ∧
    ((status c = Some "join-join" ∧ weight c = 4%Z) ∨
     (status c = Some "invite-join" ∧ weight c = 3%Z) ∨
     (status c = Some "join-invite" ∧ weight c = 2%Z) ∨
     (status c = Some "join-leave" ∧ weight c = 1%Z)).
Proof.
  unfold _selectDirectChat, selectAmong. cbv zeta.
  set (L := _getDirectMessageRooms cli userId).
  destruct (forEachRoom_scanning L userId L (Some noCandidate)) as (s & -> & Hs).
  - intros r Hr. split; [exact Hr|].
    by apply (getDirectMessageRooms_has_target cli).
  - apply scanning_init.
  - simpl. destruct (finalSelection_scanning L s Hs) as [->|(c & -> & Hc)].
    + by left.
    + right. destruct Hc as (r & Hroom & HrL & Hdate & Hrank).
      exists c, r. repeat split; try done. by rewrite Hdate.
Qed.

(** *** Single steps of the scan *)

Lemma visitRoom_mutualJoin userId s r :
  mutualJoin userId r →
  visitRoom userId s r =
  Js.Return (if replaces s 4 (roomCreateEventDateOf r)
             then Some (joinJoinCandidate r) else s).
Proof.
  intros [Hmine Hhis]. unfold hisMembershipIn in Hhis.
  destruct (members (currentState r) !! userId) as [him|] eqn:Hhim; [|done].
  simpl in Hhis. injection Hhis as Hhis.
  unfold visitRoom. cbv zeta. rewrite Hhim, Hmine. simpl. rewrite Hhis. simpl.
  by destruct (replaces s 4 _).
Qed.

(** The [else] branch: a room whose pair is not ranked overwrites
    [selectedRoom] with the all-null object, whatever it held. *)
Lemma visitRoom_unranked userId s r him :
  members (currentState r) !! userId = Some him →
  rankedPair (getMyMembership r) (membership him) = false →
  visitRoom userId s r = Js.Return (Some noCandidate).
Proof.
  intros Hhim Hpair. unfold visitRoom. cbv zeta. rewrite Hhim. simpl.
  unfold rankedPair in Hpair.
  apply orb_false_elim in Hpair as [Hpair Hjl].
  apply orb_false_elim in Hpair as [Hpair Hji].
  apply orb_false_elim in Hpair as [Hjj Hij].
  by rewrite Hjj, Hij, Hji, Hjl.
Qed.

Lemma forEachRoom_app userId l1 l2 s :
  forEachRoom userId (l1 ++ l2)%list s =
  (let! s1 := forEachRoom userId l1 s in forEachRoom userId l2 s1).
Proof.
  revert s. induction l1 as [|r l1 IH]; intros s; simpl; [done|].
  destruct (visitRoom userId s r); simpl; [apply IH|done].
Qed.

(** The scan forgets every earlier acceptance when the last filtered room
    is an unranked one. *)
Lemma selectDirectChat_reset_by_last cli userId l r him :
  _getDirectMessageRooms cli userId = (l ++ [r])%list →
  members (currentState r) !! userId = Some him →
  rankedPair (getMyMembership r) (membership him) = false →
  _selectDirectChat cli userId = Js.Return None.
Proof.
  intros Hfilter Hhim Hpair.
  destruct (forEachRoom_scanning (l ++ [r])%list userId l (Some noCandidate))
    as (s & Hs & _).
  - intros r' Hr'. split; [apply elem_of_app; by left|].
    apply (getDirectMessageRooms_has_target cli). rewrite Hfilter.
    apply elem_of_app. by left.
  - apply scanning_init.
  - unfold _selectDirectChat, selectAmong. cbv zeta.
    rewrite Hfilter, forEachRoom_app, Hs. simpl.
    by rewrite (visitRoom_unranked userId s r him Hhim Hpair).
Qed.

(** *** Results of whole scans *)

(** When no room of the client passes the test of the filter (two member
    entries, the target and the caller among them), _selectDirectChat
    returns [null]. *)
Theorem selectDirectChat_null_without_two_party cli userId :
  (∀ r, r ∈ getRooms cli →
        ¬ (size (members (currentState r)) = 2%nat ∧
           userId ∈ dom (members (currentState r)) ∧
           getUserId cli ∈ dom (members (currentState r)))) →
  _selectDirectChat cli userId = Js.Return None.
Proof.
  intros Hnone. unfold _selectDirectChat. cbv zeta.
  destruct (_getDirectMessageRooms cli userId) as [|r l] eqn:Hfilter; [done|].
  exfalso. assert (Hr : r ∈ _getDirectMessageRooms cli userId).
  { rewrite Hfilter. by left. }
  apply getDirectMessageRooms_member in Hr as [Hin Hkept].
  apply isDirectMessageRoom_true in Hkept. exact (Hnone r Hin Hkept).
Qed.

(** C6: when the filter keeps exactly one room and both the caller and the
    target are joined in it, _selectDirectChat returns that room with the
    status join-join (the mutual-join label of the code) and weight 4. *)
Theorem selectDirectChat_single_mutual_join cli userId r :
  _getDirectMessageRooms cli userId = [r] →
  mutualJoin userId r →
  _selectDirectChat cli userId =
  Js.Return (Some {| room := Some r; status := Some "join-join";
                     date := Some (roomCreateEventDateOf r); weight := 4 |}).
Proof.
  intros Hfilter Hjoin. unfold _selectDirectChat, selectAmong. cbv zeta.
  rewrite Hfilter. simpl. by rewrite (visitRoom_mutualJoin _ _ _ Hjoin).
Qed.

(** C2: when the filter keeps exactly two rooms, both mutual-join, the one
    with the smaller creation timestamp is returned, in whichever order the
    two rooms are visited. *)
Theorem selectDirectChat_earliest_of_two_mutual_joins cli userId r1 r2 (T1 T2 : Z) :
  _getDirectMessageRooms cli userId = [r1; r2] ∨
  _getDirectMessageRooms cli userId = [r2; r1] →
  mutualJoin userId r1 →
  mutualJoin userId r2 →
  roomCreateEventDateOf r1 = T1 →
  roomCreateEventDateOf r2 = T2 →
  (T1 < T2)%Z →
  _selectDirectChat cli userId =
  Js.Return (Some {| room := Some r1; status := Some "join-join";
                     date := Some T1; weight := 4 |}).
Proof.
  intros Horder Hj1 Hj2 <- <- Hlt.
  unfold _selectDirectChat, selectAmong. cbv zeta.
  destruct Horder as [-> | ->]; simpl.
  - rewrite (visitRoom_mutualJoin _ _ _ Hj1). simpl.
    rewrite (visitRoom_mutualJoin _ _ _ Hj2). simpl.
    assert ((roomCreateEventDateOf r2 <? roomCreateEventDateOf r1)%Z = false)
      as -> by (apply Z.ltb_ge; lia).
    reflexivity.
  - rewrite (visitRoom_mutualJoin _ _ _ Hj2). simpl.
    rewrite (visitRoom_mutualJoin _ _ _ Hj1). simpl.
    assert ((roomCreateEventDateOf r1 <? roomCreateEventDateOf r2)%Z = true)
      as -> by (apply Z.ltb_lt; lia).
    reflexivity.
Qed.

End SelectDirectChat.

(** *** The scan on the sample rooms *)

Section SelectDirectChatSamples.

Import Sample.

Lemma selectDirectChat_null_without_two_party_sample :
  _selectDirectChat (clientWith [group]) bob = Js.Return None.
Proof.
  apply (selectDirectChat_null_without_two_party (clientWith [group]) bob).
  intros r Hr [Hsize _]. apply list_elem_of_singleton in Hr. subst r.
  vm_compute in Hsize. discriminate Hsize.
Defined.

Lemma selectDirectChat_single_mutual_join_sample :
  _selectDirectChat (clientWith [group; joined]) bob =
  Js.Return (Some {| room := Some joined; status := Some "join-join";
                     date := Some 100%Z; weight := 4 |}).
Proof.
  apply (selectDirectChat_single_mutual_join (clientWith [group; joined]) bob joined).
  - vm_compute. reflexivity.
  - split; vm_compute; reflexivity.
Defined.

Lemma selectDirectChat_earliest_of_two_mutual_joins_sample :
  _selectDirectChat (clientWith [joinedLater; group; joined]) bob =
  Js.Return (Some {| room := Some joined; status := Some "join-join";
                     date := Some 100%Z; weight := 4 |}).
Proof.
  apply (selectDirectChat_earliest_of_two_mutual_joins
           (clientWith [joinedLater; group; joined]) bob joined joinedLater
           100 200).
  - right. vm_compute. reflexivity.
  - split; vm_compute; reflexivity.
  - split; vm_compute; reflexivity.
  - vm_compute. reflexivity.
  - vm_compute. reflexivity.
  - lia.
Defined.

(** C1: on the rooms [joined] (mutual join, weight 4) then [bothLeft]
    (leave/leave), both kept by the filter, the scan accepts [joined] and
    then overwrites it at [bothLeft]: _selectDirectChat returns [null],
    not the earlier weight-4 room. *)
Theorem selectDirectChat_later_rejection_erases :
  _getDirectMessageRooms (clientWith [joined; bothLeft]) bob = [joined; bothLeft] ∧
  forEachRoom bob [joined] (Some noCandidate) =
    Js.Return (Some (joinJoinCandidate joined)) ∧
  rankedPair (getMyMembership bothLeft) "leave" = false ∧
  hisMembershipIn bob bothLeft = Some "leave" ∧
  _selectDirectChat (clientWith [joined; bothLeft]) bob = Js.Return None.
Proof. repeat split; vm_compute; reflexivity. Qed.

(** The same two rooms visited in the other order give the joined room. *)
Lemma selectDirectChat_rejection_first :
  _selectDirectChat (clientWith [bothLeft; joined]) bob =
  Js.Return (Some (joinJoinCandidate joined)).
Proof. vm_compute. reflexivity. Qed.

End SelectDirectChatSamples.

(** ** isValid3pidInvite *)

Section Valid3pidInvite.

Lemma checkRequiredKeys_true e keys :
  checkRequiredKeys e keys = true ↔
  ∀ k, k ∈ keys → Js.truthy (Js.get (getContent e) k) = true.
Proof.
  induction keys as [|k keys IH]; simpl.
  - split; [intros _ k' Hk'; by apply elem_of_nil in Hk'|done].
  - destruct (Js.truthy (Js.get (getContent e) k)) eqn:Hk; simpl.
    + rewrite IH. split.
      * intros Hrest k' Hk'. apply elem_of_cons in Hk' as [->|Hk']; auto.
      * intros Hall k' Hk'. apply Hall. by right.
    + split; [done|]. intros Hall. rewrite <- Hk. apply Hall. by left.
Qed.

(** C10: isValid3pidInvite answers true exactly for a non-null event of
    type m.room.third_party_invite whose content has truthy values under
    key_validity_url, public_key and display_name, and false otherwise. *)
Theorem isValid3pidInvite_true_iff (ev : option MatrixEvent) :
  let valid :=
    ∃ e, ev = Some e ∧
         getType e = "m.room.third_party_invite" ∧
         Js.truthy (Js.get (getContent e) "key_validity_url") = true ∧
         Js.truthy (Js.get (getContent e) "public_key") = true ∧
         Js.truthy (Js.get (getContent e) "display_name") = true in
  (isValid3pidInvite ev = true ↔ valid) ∧
  (isValid3pidInvite ev = false ↔ ¬ valid).
Proof.
  intros valid.
  assert (Htrue : isValid3pidInvite ev = true ↔ valid).
  { unfold valid, isValid3pidInvite. destruct ev as [e|].
    - destruct (getType e =? "m.room.third_party_invite") eqn:Hty; cbn [negb].
      + apply String.eqb_eq in Hty. rewrite checkRequiredKeys_true. split.
        * intros Hall. exists e. unfold requiredKeys in Hall.
          repeat split; try done; apply Hall;
            repeat first [by left | right].
        * intros (e' & [= <-] & _ & H1 & H2 & H3) k Hk.
          unfold requiredKeys in Hk. set_unfold in Hk.
          destruct Hk as [->|[->|[->|[]]]]; assumption.
      + apply String.eqb_neq in Hty. split; [done|].
        intros (e' & [= <-] & Hty' & _). contradiction.
    - split; [done|]. intros (e & Hev & _). discriminate Hev. }
  split; [exact Htrue|].
  rewrite <- Htrue. destruct (isValid3pidInvite ev); split; done.
Qed.

End Valid3pidInvite.

(** ** _inviteToRoom *)

Section InviteToRoomProperties.

Context {Promise : Type}.
Variable getAddressType : string → option string.
Variable inviteByEmail invite : string → string → Promise.

(** C8: the call throws the Unsupported address error exactly when the
    address type is neither email nor mx-user-id, and throws nothing else;
    on an email address it returns what the client's inviteByEmail returns
    on the same room and address, on an mx-user-id what the client's invite
    returns. *)
Theorem inviteToRoom_by_address_type (roomId addr : string) :
  (_inviteToRoom getAddressType inviteByEmail invite roomId addr =
     Js.Throw (Error "Unsupported address") ↔
   getAddressType addr ≠ Some "email" ∧
   getAddressType addr ≠ Some "mx-user-id") ∧
  (∀ x, _inviteToRoom getAddressType inviteByEmail invite roomId addr = Js.Throw x →
        x = Error "Unsupported address") ∧
  (getAddressType addr = Some "email" →
   _inviteToRoom getAddressType inviteByEmail invite roomId addr =
     Js.Return (inviteByEmail roomId addr)) ∧
  (getAddressType addr = Some "mx-user-id" →
   _inviteToRoom getAddressType inviteByEmail invite roomId addr =
     Js.Return (invite roomId addr)).
Proof.
  unfold _inviteToRoom. cbv zeta.
  repeat case_bool_decide; repeat split; try done; try congruence.
  - intros [? ?]. contradiction.
  - intros [? ?]. contradiction.
Qed.

End InviteToRoomProperties.

Lemma inviteToRoom_by_address_type_sample :
  _inviteToRoom Sample.addressType Sample.byEmail Sample.byUserId
    "!joined:example.org" "bob@example.org" =
    Js.Return ("inviteByEmail", "!joined:example.org", "bob@example.org") ∧
  _inviteToRoom Sample.addressType Sample.byEmail Sample.byUserId
    "!joined:example.org" Sample.bob =
    Js.Return ("invite", "!joined:example.org", Sample.bob) ∧
  _inviteToRoom Sample.addressType Sample.byEmail Sample.byUserId
    "!joined:example.org" "#lobby:example.org" =
    Js.Throw (Error "Unsupported address").
Proof.
  split; [|split].
  - apply (inviteToRoom_by_address_type Sample.addressType Sample.byEmail
             Sample.byUserId "!joined:example.org" "bob@example.org").
    reflexivity.
  - apply (inviteToRoom_by_address_type Sample.addressType Sample.byEmail
             Sample.byUserId "!joined:example.org" Sample.bob).
    reflexivity.
  - apply (inviteToRoom_by_address_type Sample.addressType Sample.byEmail
             Sample.byUserId "!joined:example.org" "#lobby:example.org").
    split; vm_compute; discriminate.
Defined.

(** ** asyncAction *)

Module AsyncActionFacts.

Import ActionCreators.

Section Traces.

Context {Val Store : Type}.
Variable undefined : Val.
Variable meanwhile : Store → Store.

Implicit Types (id : string) (fn : Operation Val Store)
  (dispatch : Dispatch Val Store) (w : World Val Store) (s : Store) (a : Action Val).

(** A call of the dispatch function is recorded whether it returns or
    throws. *)
Lemma callDispatch_dispatched dispatch a w :
  dispatched (callDispatch dispatch a w).1 = (dispatched w ++ [a])%list.
Proof. unfold callDispatch. by destruct (dispatch a (store w)). Qed.

Lemma callDispatch_completion dispatch a w :
  (callDispatch dispatch a w).2 = (dispatch a (store w)).2.
Proof. unfold callDispatch. by destruct (dispatch a (store w)). Qed.

(** The call itself dispatches the pending action first, and nothing else
    before it ends, whatever the operation and the dispatch function do. *)
Lemma asyncAction_afterCall id fn dispatch s0 :
  dispatched (afterCall (asyncAction undefined meanwhile id fn dispatch s0)) =
  [pendingAction id].
Proof.
  unfold asyncAction, callDispatch. simpl.
  destruct (dispatch (pendingAction id) s0) as [s1 [[]|e]]; simpl; [|done].
  destruct (fn s1) as [s2 [p|e]]; simpl; [|done].
  destruct (then_ _ p _ _) as [w4 p1].
  by destruct (catch_ _ p1 _ _).
Qed.

(** When the dispatch function throws on the pending action, the call ends
    there: the operation is not started and nothing more is dispatched. *)
Lemma asyncAction_pending_throws id fn dispatch s0 e :
  (dispatch (pendingAction id) s0).2 = Js.Throw e →
  completion (asyncAction undefined meanwhile id fn dispatch s0) = Js.Throw e ∧
  dispatched (afterSettle (asyncAction undefined meanwhile id fn dispatch s0)) =
  [pendingAction id].
Proof.
  unfold asyncAction, callDispatch. simpl.
  destruct (dispatch (pendingAction id) s0) as [s1 c1]. simpl. by intros ->.
Qed.

(** When the promise never settles, nothing follows the pending action. *)
Lemma asyncAction_never_settled id fn dispatch s0 :
  (∀ s, (fn s).2 = Js.Return Pending) →
  dispatched (afterSettle (asyncAction undefined meanwhile id fn dispatch s0)) =
  [pendingAction id].
Proof.
  intros Hfn. unfold asyncAction, callDispatch. simpl.
  destruct (dispatch (pendingAction id) s0) as [s1 [[]|e]]; simpl; [|done].
  specialize (Hfn s1). destruct (fn s1) as [s2 r]. simpl in Hfn. by subst r.
Qed.

(** C3: when the operation resolves with [V] and the dispatch function
    returns normally on the pending and on the success action, the call
    returns having dispatched the pending action alone, and once the
    promise has settled the dispatch calls are exactly the pending action
    followed by the success action carrying [V]. *)
Theorem asyncAction_resolved id fn dispatch s0 (V : Val) :
  (∀ s, (fn s).2 = Js.Return (Fulfilled V)) →
  (∀ s, (dispatch (pendingAction id) s).2 = Js.Return tt) →
  (∀ s, (dispatch (successAction id V) s).2 = Js.Return tt) →
  completion (asyncAction undefined meanwhile id fn dispatch s0) = Js.Return tt ∧
  dispatched (afterCall (asyncAction undefined meanwhile id fn dispatch s0)) =
    [pendingAction id] ∧
  dispatched (afterSettle (asyncAction undefined meanwhile id fn dispatch s0)) =
    [pendingAction id; successAction id V].
Proof.
  intros Hfn Hpending Hsuccess.
  split; [|split; [apply asyncAction_afterCall|]];
    unfold asyncAction, callDispatch; simpl;
    specialize (Hpending s0);
    destruct (dispatch (pendingAction id) s0) as [s1 c1]; simpl in Hpending;
    subst c1; simpl;
    specialize (Hfn s1); destruct (fn s1) as [s2 r]; simpl in Hfn; subst r;
    simpl; unfold callDispatch; simpl;
    specialize (Hsuccess (meanwhile s2));
    destruct (dispatch (successAction id V) (meanwhile s2)) as [s3 c3];
    simpl in Hsuccess; subst c3; reflexivity.
Qed.

(** C4: when the operation is rejected with [E] and the dispatch function
    returns normally on the pending action, the call returns having
    dispatched the pending action alone, and once the promise has settled
    the dispatch calls are exactly the pending action followed by the
    failure action carrying [E]: one settled action, the failure, after the
    pending one, and no success action. *)
Theorem asyncAction_rejected id fn dispatch s0 (E : Val) :
  (∀ s, (fn s).2 = Js.Return (Rejected E)) →
  (∀ s, (dispatch (pendingAction id) s).2 = Js.Return tt) →
  completion (asyncAction undefined meanwhile id fn dispatch s0) = Js.Return tt ∧
  dispatched (afterCall (asyncAction undefined meanwhile id fn dispatch s0)) =
    [pendingAction id] ∧
  dispatched (afterSettle (asyncAction undefined meanwhile id fn dispatch s0)) =
    [pendingAction id; failureAction id E] ∧
  (∀ v, successAction id v ∉
        dispatched (afterSettle (asyncAction undefined meanwhile id fn dispatch s0))).
Proof.
  intros Hfn Hpending.
  assert (Hlog :
    dispatched (afterSettle (asyncAction undefined meanwhile id fn dispatch s0)) =
    [pendingAction id; failureAction id E]).
  { unfold asyncAction, callDispatch. simpl.
    specialize (Hpending s0).
    destruct (dispatch (pendingAction id) s0) as [s1 c1]. simpl in Hpending.
    subst c1. simpl.
    specialize (Hfn s1). destruct (fn s1) as [s2 r]. simpl in Hfn. subst r.
    simpl. unfold callDispatch. simpl.
    by destruct (dispatch (failureAction id E) (meanwhile s2)) as [s3 c3]. }
  split; [|split; [apply asyncAction_afterCall|split; [exact Hlog|]]].
  - unfold asyncAction, callDispatch. simpl.
    specialize (Hpending s0).
    destruct (dispatch (pendingAction id) s0) as [s1 c1]. simpl in Hpending.
    subst c1. simpl.
    specialize (Hfn s1). destruct (fn s1) as [s2 r]. simpl in Hfn. subst r.
    simpl. unfold callDispatch. simpl.
    by destruct (dispatch (failureAction id E) (meanwhile s2)) as [s3 c3].
  - intros v. rewrite Hlog. intros Hin.
    apply elem_of_cons in Hin as [Heq|Hin].
    + discriminate Heq.
    + apply list_elem_of_singleton in Hin. discriminate Hin.
Qed.

End Traces.

(** *** The helper on the sample collaborators *)

Lemma asyncAction_resolved_sample :
  completion (run "foo" (resolving (Js.Num 42)) quiet) = Js.Return tt ∧
  dispatched (afterCall (run "foo" (resolving (Js.Num 42)) quiet)) =
    [pendingAction "foo"] ∧
  dispatched (afterSettle (run "foo" (resolving (Js.Num 42)) quiet)) =
    [pendingAction "foo"; successAction "foo" (Js.Num 42)].
Proof.
  apply (asyncAction_resolved Js.Undefined (λ s, s) "foo"
           (resolving (Js.Num 42)) quiet tt (Js.Num 42));
    intros s; reflexivity.
Defined.

Lemma asyncAction_rejected_sample :
  completion (run "foo" (rejecting (Js.Str "bad")) quiet) = Js.Return tt ∧
  dispatched (afterCall (run "foo" (rejecting (Js.Str "bad")) quiet)) =
    [pendingAction "foo"] ∧
  dispatched (afterSettle (run "foo" (rejecting (Js.Str "bad")) quiet)) =
    [pendingAction "foo"; failureAction "foo" (Js.Str "bad")] ∧
  (∀ v, successAction "foo" v ∉
        dispatched (afterSettle (run "foo" (rejecting (Js.Str "bad")) quiet))).
Proof.
  apply (asyncAction_rejected Js.Undefined (λ s, s) "foo"
           (rejecting (Js.Str "bad")) quiet tt (Js.Str "bad"));
    intros s; reflexivity.
Defined.

(** A dispatch function that throws on the success action: the operation
    resolves with 42, and three dispatch calls are made, the third one a
    failure action carrying what the dispatch function threw.  When it
    throws on the pending action instead, that call is the only one. *)
Lemma asyncAction_resolved_dispatch_throws :
  (∀ s, (resolving (Js.Num 42) s).2 = Js.Return (Fulfilled (Js.Num 42))) ∧
  dispatched (afterSettle (run "foo" (resolving (Js.Num 42))
                             (throwingOn "foo.success" (Js.Str "boom")))) =
    [pendingAction "foo"; successAction "foo" (Js.Num 42);
     failureAction "foo" (Js.Str "boom")] ∧
  dispatched (afterSettle (run "foo" (resolving (Js.Num 42))
                             (throwingOn "foo.success" (Js.Str "boom")))) ≠
    [pendingAction "foo"; successAction "foo" (Js.Num 42)] ∧
  dispatched (afterSettle (run "foo" (resolving (Js.Num 42))
                             (throwingOn "foo.pending" (Js.Str "boom")))) =
    [pendingAction "foo"].
Proof.
  split; [intros s; reflexivity|]. split; [vm_compute; reflexivity|].
  split; [vm_compute; discriminate|]. vm_compute. reflexivity.
Qed.

(** A dispatch function that throws on the pending action: the operation,
    which would be rejected with "bad", is never started, and the pending
    action is the only dispatch call. *)
Lemma asyncAction_rejected_dispatch_throws :
  (∀ s, (rejecting (Js.Str "bad") s).2 = Js.Return (Rejected (Js.Str "bad"))) ∧
  completion (run "foo" (rejecting (Js.Str "bad"))
                (throwingOn "foo.pending" (Js.Str "boom"))) =
    Js.Throw (Js.Str "boom") ∧
  dispatched (afterSettle (run "foo" (rejecting (Js.Str "bad"))
                             (throwingOn "foo.pending" (Js.Str "boom")))) =
    [pendingAction "foo"] ∧
  dispatched (afterSettle (run "foo" (rejecting (Js.Str "bad"))
                             (throwingOn "foo.pending" (Js.Str "boom")))) ≠
    [pendingAction "foo"; failureAction "foo" (Js.Str "bad")].
Proof.
  split; [intros s; reflexivity|]. repeat split; try (vm_compute; reflexivity).
  vm_compute. discriminate.
Qed.

End AsyncActionFacts.

(** ** Whole scans of _selectDirectChat *)

Section WholeScans.

Implicit Types (r : Room) (cli : MatrixClient) (userId : string)
  (s : option Candidate) (c : Candidate) (L l : list Room).

Lemma pairWeight_range mine his :
  (0 ≤ pairWeight mine his ≤ 4)%Z.
Proof. unfold pairWeight. repeat case_match; lia. Qed.

Lemma pairWeight_rankedPair mine his :
  pairWeight mine his = 0%Z ↔ rankedPair mine his = false.
Proof.
  unfold pairWeight, rankedPair.
  destruct (_ && _); [done|]. destruct (_ && _); [done|].
  destruct (_ && _); [done|]. by destruct (_ && _).
Qed.

(** One step of the scan, by the weight of the room. *)
Lemma visitRoom_by_weight userId s r :
  is_Some (members (currentState r) !! userId) →
  visitRoom userId s r =
  Js.Return (if (roomWeight userId r =? 0)%Z then Some noCandidate
             else if replaces s (roomWeight userId r) (roomCreateEventDateOf r)
                  then Some (candidateOf userId r)
                  else s).
Proof.
  intros [him Hhim].
  unfold visitRoom, candidateOf, roomWeight, roomStatus, pairWeight, pairStatus.
  cbv zeta. rewrite Hhim. simpl.
  repeat (destruct (_ && _); [simpl; by destruct (replaces s _ _)|]).
  reflexivity.
Qed.

Lemma visitRoom_bestSoFar userId l s r :
  is_Some (members (currentState r) !! userId) →
  roomWeight userId r ≠ 0%Z →
  bestSoFar userId l s →
  ∃ s', visitRoom userId s r = Js.Return s' ∧ bestSoFar userId (l ++ [r]) s'.
Proof.
  intros Hhim Hw Hs. rewrite (visitRoom_by_weight _ _ _ Hhim).
  assert (Hpos : (0 < roomWeight userId r)%Z).
  { unfold roomWeight in *. destruct (members (currentState r) !! userId); [|done].
    pose proof (pairWeight_range (getMyMembership r) (membership r0)). lia. }
  destruct (roomWeight userId r =? 0)%Z eqn:Hz; [apply Z.eqb_eq in Hz; lia|].
  eexists. split; [reflexivity|].
  destruct Hs as [[-> ->] | (r0 & -> & (before & after & -> & Hbefore & Hafter) & Hpos0)].
  - simpl. assert ((0 <? roomWeight userId r)%Z = true) as ->
      by (apply Z.ltb_lt; lia).
    simpl. right. exists r. split; [done|]. split; [|done].
    exists [], []. split; [done|]. split; intros r' Hr'; by apply elem_of_nil in Hr'.
  - unfold replaces. cbn [candidateOf weight date dateToNumber default id].
    destruct ((roomWeight userId r0 <? roomWeight userId r)%Z ||
              ((roomWeight userId r0 =? roomWeight userId r)%Z &&
               (roomCreateEventDateOf r <? roomCreateEventDateOf r0)%Z)) eqn:Hrep.
    + assert (Hpref : preferred userId r r0).
      { apply orb_true_iff in Hrep as [Hlt|Heq].
        - left. by apply Z.ltb_lt.
        - apply andb_true_iff in Heq as [Heq Hlt]. right.
          split; [by apply Z.eqb_eq|by apply Z.ltb_lt]. }
      right. exists r. split; [done|]. split; [|done].
      exists (before ++ r0 :: after)%list, []. split; [done|].
      split; [|intros r' Hr'; by apply elem_of_nil in Hr'].
      intros r' Hr'. apply elem_of_app in Hr' as [Hr'|Hr'].
      * specialize (Hbefore r' Hr'). unfold preferred in *. lia.
      * apply elem_of_cons in Hr' as [->|Hr']; [done|].
        specialize (Hafter r' Hr'). unfold preferred in *. lia.
    + assert (Hnot : ¬ preferred userId r r0).
      { apply orb_false_iff in Hrep as [Hlt Heq]. apply Z.ltb_ge in Hlt.
        apply andb_false_iff in Heq. unfold preferred.
        destruct Heq as [Heq|Heq]; [apply Z.eqb_neq in Heq|apply Z.ltb_ge in Heq]; lia. }
      right. exists r0. split; [done|]. split; [|done].
      exists before, (after ++ [r])%list. split; [by rewrite <- app_assoc|].
      split; [done|]. intros r' Hr'. apply elem_of_app in Hr' as [Hr'|Hr'].
      * by apply Hafter.
      * apply list_elem_of_singleton in Hr'. by subst r'.
Qed.

Lemma forEachRoom_bestSoFar userId l0 l s :
  (∀ r, r ∈ l → is_Some (members (currentState r) !! userId) ∧
                 roomWeight userId r ≠ 0%Z) →
  bestSoFar userId l0 s →
  ∃ s', forEachRoom userId l s = Js.Return s' ∧ bestSoFar userId (l0 ++ l) s'.
Proof.
  revert l0 s. induction l as [|r l IH]; intros l0 s Hl Hs; simpl.
  - rewrite app_nil_r. eauto.
  - destruct (Hl r) as [Hhim Hw]; [by left|].
    destruct (visitRoom_bestSoFar userId l0 s r Hhim Hw Hs) as (s1 & -> & Hs1).
    simpl. replace (l0 ++ r :: l)%list with ((l0 ++ [r]) ++ l)%list
      by (by rewrite <- app_assoc).
    apply IH; [|exact Hs1]. intros r' Hr'. apply Hl. by right.
Qed.

Lemma roomStatus_ranked userId r :
  roomWeight userId r ≠ 0%Z → roomStatus userId r ≠ None.
Proof.
  unfold roomWeight, roomStatus, pairWeight, pairStatus.
  destruct (members (currentState r) !! userId); [|done].
  repeat (destruct (_ && _); [done|]). done.
Qed.

Lemma finalSelection_candidateOf userId r :
  roomWeight userId r ≠ 0%Z →
  finalSelection (Some (candidateOf userId r)) =
  Js.Return (Some (candidateOf userId r)).
Proof.
  intros Hw. apply roomStatus_ranked in Hw. unfold finalSelection.
  cbn [candidateOf room status date].
  destruct (roomStatus userId r); [reflexivity|done].
Qed.

Lemma finalSelection_accepted L c :
  accepted L c → finalSelection (Some c) = Js.Return (Some c).
Proof.
  intros (r & Hroom & _ & Hdate & Hrank). unfold finalSelection.
  rewrite Hroom, Hdate.
  destruct Hrank as [[-> _]|[[-> _]|[[-> _]|[-> _]]]]; reflexivity.
Qed.

Lemma filtered_rooms_scan cli userId l :
  (∀ r, r ∈ l → r ∈ _getDirectMessageRooms cli userId) →
  ∃ s, forEachRoom userId l (Some noCandidate) = Js.Return s ∧
       scanning (_getDirectMessageRooms cli userId) s.
Proof.
  intros Hl. apply forEachRoom_scanning; [|apply scanning_init].
  intros r Hr. split; [by apply Hl|].
  apply (getDirectMessageRooms_has_target cli). by apply Hl.
Qed.

(** When every filtered room is ranked, the answer is the candidate of the
    first of the most preferred rooms: highest weight, then earliest
    creation date, then earliest position in the list. *)
Theorem selectDirectChat_first_best cli userId :
  _getDirectMessageRooms cli userId ≠ [] →
  (∀ r, r ∈ _getDirectMessageRooms cli userId → roomWeight userId r ≠ 0%Z) →
  ∃ r, _selectDirectChat cli userId = Js.Return (Some (candidateOf userId r)) ∧
       firstBest userId (_getDirectMessageRooms cli userId) r.
Proof.
  intros Hne Hall. unfold _selectDirectChat, selectAmong. cbv zeta.
  set (L := _getDirectMessageRooms cli userId) in *.
  destruct (forEachRoom_bestSoFar userId [] L (Some noCandidate))
    as (s & -> & Hs).
  - intros r Hr. split; [|by apply Hall].
    by apply (getDirectMessageRooms_has_target cli).
  - left. done.
  - simpl in Hs. destruct Hs as [[HL _]|(r & -> & Hbest & Hpos)]; [done|].
    exists r. split; [|exact Hbest]. simpl.
    apply finalSelection_candidateOf. lia.
Qed.

(** The rooms visited before an unranked room have no influence: the answer
    is the one that the rooms after it alone would give. *)
Theorem selectDirectChat_forgets_before_unranked cli cli' userId l1 r l2 :
  _getDirectMessageRooms cli userId = (l1 ++ r :: l2)%list →
  _getDirectMessageRooms cli' userId = l2 →
  roomWeight userId r = 0%Z →
  _selectDirectChat cli userId = _selectDirectChat cli' userId.
Proof.
  intros Hfilter Hfilter' Hw. unfold _selectDirectChat, selectAmong. cbv zeta.
  destruct (filtered_rooms_scan cli userId l1) as (s & Hs & _).
  { intros r' Hr'. rewrite Hfilter. apply elem_of_app. by left. }
  rewrite Hfilter, Hfilter', forEachRoom_app, Hs. simpl.
  rewrite visitRoom_by_weight, Hw; [done|].
  apply (getDirectMessageRooms_has_target cli). rewrite Hfilter.
  apply elem_of_app. right. by left.
Qed.

(** The answer is [null] exactly when no room passes the filter or the last
    room that passes is unranked. *)
Theorem selectDirectChat_null_iff cli userId :
  _selectDirectChat cli userId = Js.Return None ↔
  _getDirectMessageRooms cli userId = [] ∨
  ∃ l r, _getDirectMessageRooms cli userId = (l ++ [r])%list ∧
         roomWeight userId r = 0%Z.
Proof.
  unfold _selectDirectChat, selectAmong. cbv zeta.
  destruct (_getDirectMessageRooms cli userId) as [|r0 l0] eqn:Hfilter
    using rev_ind.
  { split; [by left|done]. }
  assert (Hr0 : is_Some (members (currentState r0) !! userId)).
  { apply (getDirectMessageRooms_has_target cli). rewrite Hfilter.
    apply elem_of_app. right. by left. }
  destruct (filtered_rooms_scan cli userId l0) as (s & Hs & Hscan).
  { intros r' Hr'. rewrite Hfilter. apply elem_of_app. by left. }
  rewrite forEachRoom_app, Hs. simpl. rewrite (visitRoom_by_weight _ _ _ Hr0).
  simpl. destruct (roomWeight userId r0 =? 0)%Z eqn:Hz.
  - apply Z.eqb_eq in Hz. split; [|done]. intros _. right. by exists l0, r0.
  - apply Z.eqb_neq in Hz. split.
    + intros Hnull. exfalso.
      destruct (replaces s _ _) eqn:Hrep.
      * by rewrite finalSelection_candidateOf in Hnull.
      * destruct Hscan as [->|(c & -> & Hc)].
        -- unfold replaces in Hrep. simpl in Hrep.
           apply orb_false_iff in Hrep as [Hlt _]. apply Z.ltb_ge in Hlt.
           unfold roomWeight in Hz, Hlt. destruct Hr0 as [him Hhim].
           rewrite Hhim in Hz, Hlt.
           pose proof (pairWeight_range (getMyMembership r0) (membership him)).
           lia.
        -- by rewrite (finalSelection_accepted _ _ Hc) in Hnull.
    + intros [Hnil|(l & r & Heq & Hw)].
      * by destruct l0.
      * apply app_inj_tail in Heq as [_ <-]. done.
Qed.

End WholeScans.

Lemma selectDirectChat_first_best_sample :
  ∃ r, _selectDirectChat
         (Sample.clientWith [Sample.joinedLater; Sample.group; Sample.joined])
         Sample.bob = Js.Return (Some (candidateOf Sample.bob r)) ∧
       firstBest Sample.bob
         (_getDirectMessageRooms
            (Sample.clientWith [Sample.joinedLater; Sample.group; Sample.joined])
            Sample.bob) r.
Proof.
  apply (selectDirectChat_first_best
           (Sample.clientWith [Sample.joinedLater; Sample.group; Sample.joined])
           Sample.bob).
  - vm_compute. discriminate.
  - intros r Hr. vm_compute in Hr.
    apply elem_of_cons in Hr as [->|Hr];
      [|apply list_elem_of_singleton in Hr as ->]; vm_compute; discriminate.
Defined.

Lemma selectDirectChat_forgets_before_unranked_sample :
  _selectDirectChat
    (Sample.clientWith [Sample.joined; Sample.bothLeft; Sample.joinedLater])
    Sample.bob =
  _selectDirectChat (Sample.clientWith [Sample.joinedLater]) Sample.bob.
Proof.
  apply (selectDirectChat_forgets_before_unranked
           (Sample.clientWith [Sample.joined; Sample.bothLeft; Sample.joinedLater])
           (Sample.clientWith [Sample.joinedLater]) Sample.bob
           [Sample.joined] Sample.bothLeft [Sample.joinedLater]);
    vm_compute; reflexivity.
Defined.

(** ** asyncAction: the other ways an invocation can go *)

Module AsyncActionCases.

Import ActionCreators.

Section Cases.

Context {Val Store : Type}.
Variable undefined : Val.
Variable meanwhile : Store → Store.

Implicit Types (id : string) (fn : Operation Val Store)
  (dispatch : Dispatch Val Store) (s : Store).

(** Whatever the operation and the dispatch function do, the dispatch calls
    of one invocation are the pending action alone, or followed by one
    success action, or by one failure action, or by a success action and
    then a failure action.  There is never a failure before a success, nor
    a second success or failure. *)
Theorem asyncAction_dispatch_shapes id fn dispatch s0 :
  let log := dispatched (afterSettle (asyncAction undefined meanwhile id fn dispatch s0)) in
  log = [pendingAction id] ∨
  (∃ v, log = [pendingAction id; successAction id v]) ∨
  (∃ e, log = [pendingAction id; failureAction id e]) ∨
  (∃ v e, log = [pendingAction id; successAction id v; failureAction id e]).
Proof.
  unfold asyncAction, callDispatch. simpl.
  destruct (dispatch (pendingAction id) s0) as [s1 [[]|e]]; simpl; [|by left].
  destruct (fn s1) as [s2 [p|e]]; simpl; [|by left].
  destruct p as [v|e|]; simpl; unfold callDispatch; simpl.
  - destruct (dispatch (successAction id v) (meanwhile s2)) as [s3 [[]|e]]; simpl.
    + right. left. by exists v.
    + unfold callDispatch. simpl.
      destruct (dispatch (failureAction id e) s3) as [s4 c4].
      right. right. right. by exists v, e.
  - destruct (dispatch (failureAction id e) (meanwhile s2)) as [s3 c3].
    right. right. left. by exists e.
  - by left.
Qed.

(** An operation that throws instead of returning a promise: the exception
    leaves the call, and no failure action reports it. *)
Theorem asyncAction_operation_throws id fn dispatch s0 (e : Val) :
  (∀ s, (fn s).2 = Js.Throw e) →
  (∀ s, (dispatch (pendingAction id) s).2 = Js.Return tt) →
  completion (asyncAction undefined meanwhile id fn dispatch s0) = Js.Throw e ∧
  dispatched (afterSettle (asyncAction undefined meanwhile id fn dispatch s0)) =
    [pendingAction id].
Proof.
  intros Hfn Hpending. unfold asyncAction, callDispatch. simpl.
  specialize (Hpending s0).
  destruct (dispatch (pendingAction id) s0) as [s1 c1]. simpl in Hpending.
  subst c1. simpl. specialize (Hfn s1).
  destruct (fn s1) as [s2 r]. simpl in Hfn. by subst r.
Qed.

(** A dispatch function that throws on the success action: the promise of
    [then] is rejected with what it threw, so the [catch] handler dispatches
    a failure action although the operation resolved. *)
Theorem asyncAction_success_dispatch_throws id fn dispatch s0 (V e : Val) :
  (∀ s, (fn s).2 = Js.Return (Fulfilled V)) →
  (∀ s, (dispatch (pendingAction id) s).2 = Js.Return tt) →
  (∀ s, (dispatch (successAction id V) s).2 = Js.Throw e) →
  completion (asyncAction undefined meanwhile id fn dispatch s0) = Js.Return tt ∧
  dispatched (afterSettle (asyncAction undefined meanwhile id fn dispatch s0)) =
    [pendingAction id; successAction id V; failureAction id e].
Proof.
  intros Hfn Hpending Hsuccess. unfold asyncAction, callDispatch. simpl.
  specialize (Hpending s0).
  destruct (dispatch (pendingAction id) s0) as [s1 c1]. simpl in Hpending.
  subst c1. simpl. specialize (Hfn s1).
  destruct (fn s1) as [s2 r]. simpl in Hfn. subst r. simpl.
  unfold callDispatch. simpl. specialize (Hsuccess (meanwhile s2)).
  destruct (dispatch (successAction id V) (meanwhile s2)) as [s3 c3].
  simpl in Hsuccess. subst c3. simpl. unfold callDispatch. simpl.
  by destruct (dispatch (failureAction id e) s3) as [s4 c4].
Qed.

(** A promise that never settles: the pending action is dispatched and
    nothing follows, whatever the dispatch function does. *)
Theorem asyncAction_unsettled id fn dispatch s0 :
  (∀ s, (fn s).2 = Js.Return Pending) →
  dispatched (afterSettle (asyncAction undefined meanwhile id fn dispatch s0)) =
    [pendingAction id].
Proof.
  intros Hfn. unfold asyncAction, callDispatch. simpl.
  destruct (dispatch (pendingAction id) s0) as [s1 [[]|e]]; simpl; [|done].
  specialize (Hfn s1). destruct (fn s1) as [s2 r]. simpl in Hfn. by subst r.
Qed.

(** A dispatch function that throws on the pending action: the exception
    leaves the call and the operation is not started, so the invocation is
    the same whatever the operation is. *)
Theorem asyncAction_pending_dispatch_throws id fn fn' dispatch s0 (e : Val) :
  (dispatch (pendingAction id) s0).2 = Js.Throw e →
  asyncAction undefined meanwhile id fn dispatch s0 =
    asyncAction undefined meanwhile id fn' dispatch s0 ∧
  completion (asyncAction undefined meanwhile id fn dispatch s0) = Js.Throw e ∧
  dispatched (afterSettle (asyncAction undefined meanwhile id fn dispatch s0)) =
    [pendingAction id].
Proof.
  unfold asyncAction, callDispatch. simpl.
  destruct (dispatch (pendingAction id) s0) as [s1 c1]. simpl. by intros ->.
Qed.

End Cases.

Import ActionSamples.

Lemma asyncAction_operation_throws_sample :
  completion (run "foo" (throwing (Js.Str "boom")) quiet) = Js.Throw (Js.Str "boom") ∧
  dispatched (afterSettle (run "foo" (throwing (Js.Str "boom")) quiet)) =
    [pendingAction "foo"].
Proof.
  apply (asyncAction_operation_throws Js.Undefined (λ s, s) "foo"
           (throwing (Js.Str "boom")) quiet tt (Js.Str "boom"));
    intros s; reflexivity.
Defined.

Lemma asyncAction_success_dispatch_throws_sample :
  completion (run "foo" (resolving (Js.Num 42))
                (throwingOn "foo.success" (Js.Str "boom"))) = Js.Return tt ∧
  dispatched (afterSettle (run "foo" (resolving (Js.Num 42))
                             (throwingOn "foo.success" (Js.Str "boom")))) =
    [pendingAction "foo"; successAction "foo" (Js.Num 42);
     failureAction "foo" (Js.Str "boom")].
Proof.
  apply (asyncAction_success_dispatch_throws Js.Undefined (λ s, s) "foo"
           (resolving (Js.Num 42)) (throwingOn "foo.success" (Js.Str "boom"))
           tt (Js.Num 42) (Js.Str "boom"));
    intros s; reflexivity.
Defined.

Lemma asyncAction_unsettled_sample :
  dispatched (afterSettle (run "foo" hanging quiet)) = [pendingAction "foo"].
Proof.
  apply (asyncAction_unsettled Js.Undefined (λ s, s) "foo" hanging quiet tt).
  intros s. reflexivity.
Defined.

Lemma asyncAction_pending_dispatch_throws_sample :
  run "foo" (resolving (Js.Num 42)) (throwingOn "foo.pending" (Js.Str "boom")) =
    run "foo" hanging (throwingOn "foo.pending" (Js.Str "boom")) ∧
  completion (run "foo" (resolving (Js.Num 42))
                (throwingOn "foo.pending" (Js.Str "boom"))) =
    Js.Throw (Js.Str "boom") ∧
  dispatched (afterSettle (run "foo" (resolving (Js.Num 42))
                             (throwingOn "foo.pending" (Js.Str "boom")))) =
    [pendingAction "foo"].
Proof.
  apply (asyncAction_pending_dispatch_throws Js.Undefined (λ s, s) "foo"
           (resolving (Js.Num 42)) hanging
           (throwingOn "foo.pending" (Js.Str "boom")) tt (Js.Str "boom")).
  reflexivity.
Defined.

End AsyncActionCases.

(** ** _showAnyInviteErrors *)

Module InviteErrorFacts.

Import InviteFlows InviteFlowTerms.

Section Facts.

Variable _t : string → list (string * string) → string.
Variable name : Room → string.
Variable br : string.

Implicit Types (addrs : list (string * string)) (inviter : Inviter)
  (room : option Room) (a k v : string).

Lemma prop_Some_elem addrs k v : prop addrs k = Some v → (k, v) ∈ addrs.
Proof.
  induction addrs as [|[k' v'] addrs IH]; simpl; [done|].
  destruct (k' =? k) eqn:Hk.
  - apply String.eqb_eq in Hk. intros [= <-]. subst k'. by left.
  - intros Hp. right. by apply IH.
Qed.

Lemma prop_NoDup addrs k v :
  NoDup (keys addrs) → (k, v) ∈ addrs → prop addrs k = Some v.
Proof.
  unfold keys. induction addrs as [|[k' v'] addrs IH]; simpl.
  - intros _ Hin. by apply elem_of_nil in Hin.
  - intros Hnd Hin. apply NoDup_cons in Hnd as [Hfresh Hnd].
    apply elem_of_cons in Hin as [[= -> ->]|Hin].
    + by rewrite String.eqb_refl.
    + destruct (k' =? k) eqn:Hk; [|by apply IH].
      apply String.eqb_eq in Hk. subst k'. exfalso. apply Hfresh.
      apply list_elem_of_fmap. by exists (k, v).
Qed.

Lemma filter_keys (f : string → bool) (g : string * string → bool) addrs :
  (∀ e, e ∈ addrs → f e.1 = g e) →
  List.filter f (keys addrs) = keys (List.filter g addrs).
Proof.
  unfold keys. induction addrs as [|e addrs IH]; intros Hfg; [done|].
  rewrite fmap_cons. cbn [List.filter]. rewrite (Hfg e) by (by left).
  destruct (g e); rewrite ?fmap_cons, IH; try done;
    intros e' He'; apply Hfg; by right.
Qed.

(** On an object (no key twice), the failed users are the keys of the
    entries in the error state, in key order. *)
Lemma failedUsersOf_entries addrs :
  NoDup (keys addrs) → failedUsersOf addrs = keys (failedEntries addrs).
Proof.
  intros Hnd. unfold failedUsersOf, failedEntries. apply filter_keys.
  intros [k v] Hin. simpl. rewrite (prop_NoDup _ _ _ Hnd Hin).
  apply bool_decide_ext. split; [by intros [= ->]|by intros ->].
Qed.

Lemma failedUsersOf_error addrs a :
  a ∈ failedUsersOf addrs → prop addrs a = Some "error".
Proof.
  unfold failedUsersOf. rewrite list_elem_of_In, filter_In.
  intros [_ Hb]. by apply bool_decide_eq_true in Hb.
Qed.

Lemma failedUsersOf_member addrs a :
  a ∈ keys addrs → prop addrs a = Some "error" → a ∈ failedUsersOf addrs.
Proof.
  intros Hin Hp. unfold failedUsersOf. rewrite list_elem_of_In, filter_In.
  split; [by apply list_elem_of_In|]. by apply bool_decide_eq_true.
Qed.

(** The test inside the loop never fails on the failed users, so every one
    of them gets its line. *)
Lemma collectErrors_lines addrs inviter (failedUsers errorList : list string) :
  (∀ a, a ∈ failedUsers → prop addrs a = Some "error") →
  collectErrors addrs inviter failedUsers errorList =
  (errorList ++ map (errorLine inviter) failedUsers)%list.
Proof.
  revert errorList. induction failedUsers as [|a rest IH]; intros errorList Hall.
  - simpl. by rewrite app_nil_r.
  - simpl. rewrite bool_decide_eq_true_2 by (apply Hall; by left).
    rewrite IH by (intros a' Ha'; apply Hall; by right).
    by rewrite <- app_assoc.
Qed.

(** No address in the error state: no dialog is shown and the states are
    returned, also when the room is not known. *)
Theorem showAnyInviteErrors_silent addrs room inviter :
  (∀ a, a ∈ keys addrs → prop addrs a ≠ Some "error") →
  _showAnyInviteErrors _t name br addrs room inviter = Js.Return ([], addrs).
Proof.
  intros Hnone. unfold _showAnyInviteErrors. cbv zeta.
  assert (failedUsersOf addrs = []) as ->.
  { destruct (failedUsersOf addrs) as [|a l] eqn:Hf; [done|]. exfalso.
    assert (Ha : a ∈ failedUsersOf addrs) by (rewrite Hf; by left).
    apply (Hnone a); [|by apply failedUsersOf_error].
    unfold failedUsersOf in Ha. apply list_elem_of_In, filter_In in Ha as [Ha _].
    by apply list_elem_of_In. }
  reflexivity.
Qed.

(** An address in the error state and a [null] room: the call throws a
    TypeError and shows nothing. *)
Theorem showAnyInviteErrors_unknown_room addrs inviter a :
  a ∈ keys addrs →
  prop addrs a = Some "error" →
  _showAnyInviteErrors _t name br addrs None inviter = Js.Throw TypeError.
Proof.
  intros Hin Hp. unfold _showAnyInviteErrors. cbv zeta.
  pose proof (failedUsersOf_member _ _ Hin Hp) as Hmem.
  destruct ((length (failedUsersOf addrs) =? 1)%nat && fatal inviter); [done|].
  rewrite collectErrors_lines by apply failedUsersOf_error. simpl.
  destruct (failedUsersOf addrs) as [|a' l]; [by apply elem_of_nil in Hmem|].
  reflexivity.
Qed.

(** On an object with failed entries, outside the single fatal failure: one
    dialog, whose description has one line per failed entry, in key order,
    each the address, a colon and the inviter's text for it, joined by the
    separator. *)
Theorem showAnyInviteErrors_lists_failures addrs r inviter :
  NoDup (keys addrs) →
  failedEntries addrs ≠ [] →
  length (failedEntries addrs) ≠ 1%nat ∨ fatal inviter = false →
  _showAnyInviteErrors _t name br addrs (Some r) inviter =
  Js.Return
    ([errorDialog "Failed to invite the following users to the room"
        (_t "Failed to invite the following users to the %(roomName)s room:"
            [("roomName", name r)])
        (Some (String.concat br
                 (map (errorLine inviter) (keys (failedEntries addrs)))))],
     addrs).
Proof.
  intros Hnd Hne Hnot. unfold _showAnyInviteErrors. cbv zeta.
  rewrite collectErrors_lines by apply failedUsersOf_error.
  rewrite (failedUsersOf_entries _ Hnd). unfold keys at 1.
  rewrite length_fmap.
  assert ((length (failedEntries addrs) =? 1)%nat && fatal inviter = false) as ->.
  { destruct Hnot as [Hlen| ->]; [|apply andb_false_r].
    apply Nat.eqb_neq in Hlen. by rewrite Hlen. }
  simpl. rewrite length_map. unfold keys. rewrite length_fmap.
  destruct (failedEntries addrs) as [|e l]; [done|]. reflexivity.
Qed.

(** On an object with exactly one failed entry and a fatal inviter: one
    dialog, whose description is the inviter's text for that address. *)
Theorem showAnyInviteErrors_fatal addrs r inviter a v :
  NoDup (keys addrs) →
  failedEntries addrs = [(a, v)] →
  fatal inviter = true →
  _showAnyInviteErrors _t name br addrs (Some r) inviter =
  Js.Return
    ([errorDialog "Failed to invite users to the room"
        (_t "Failed to invite users to the room:" [("roomName", name r)])
        (getErrorText inviter a)],
     addrs).
Proof.
  intros Hnd Hone Hfatal. unfold _showAnyInviteErrors. cbv zeta.
  rewrite (failedUsersOf_entries _ Hnd), Hone, Hfatal. reflexivity.
Qed.

End Facts.

End InviteErrorFacts.

(** ** _onRoomInviteFinished and _onStartChatFinished *)

Module InviteFlowFacts.

Import InviteFlows InviteFlowTerms.

Section Facts.

Variable _t : string → list (string * string) → string.
Variable name : Room → string.
Variable br : string.
Variable getAddressType : string → option string.
Variable typeErrorMessage : string.
Variable cli : MatrixClient.
Variable getRoom : string → option Room.
Variable lookupThreePid : string → string → promise (gmap string Js.value).
Variable joinRoom : string → promise unit.
Variable createRoom : string → promise unit.
Variable multiInvite :
  string → list string → Js.result errval (promise (list (string * string))).
Variable inviterAfter : string → list string → Inviter.

Local Notation "'onRoomInvite'" :=
  (_onRoomInviteFinished _t name br typeErrorMessage getRoom multiInvite inviterAfter)
  (only parsing).
Local Notation "'onStartChat'" :=
  (_onStartChatFinished _t getAddressType typeErrorMessage cli lookupThreePid
     joinRoom createRoom)
  (only parsing).

Implicit Types (a : Address) (rest addrs : list Address) (c : Candidate)
  (r : Room) (res : gmap string Js.value).

(** *** _onRoomInviteFinished *)

(** Every address invited: the batch invite is the only call; nothing is
    logged or shown, whether or not the room is known. *)
Theorem onRoomInviteFinished_all_invited (roomId : string) addrs
    (states : list (string * string)) :
  multiInvite roomId (map address addrs) = Js.Return (Resolved states) →
  (∀ k, k ∈ keys states → prop states k ≠ Some "error") →
  onRoomInvite roomId true addrs =
  ([MultiInvite roomId (map address addrs)], Js.Return tt).
Proof.
  intros Hinvite Hnone.
  unfold _onRoomInviteFinished, inviteMultipleToRoom. cbv zeta.
  rewrite Hinvite. simpl. unfold _showAnyInviteErrors. cbv zeta.
  assert (failedUsersOf states = []) as ->; [|reflexivity].
  destruct (failedUsersOf states) as [|k l] eqn:Hf; [done|]. exfalso.
  assert (Hk : k ∈ failedUsersOf states) by (rewrite Hf; by left).
  apply (Hnone k); [|by apply InviteErrorFacts.failedUsersOf_error].
  unfold failedUsersOf in Hk. apply list_elem_of_In, filter_In in Hk as [Hk _].
  by apply list_elem_of_In.
Qed.

(** A failed address in a room that the client does not know: the
    TypeError of reading the room's name is caught, so the per-address
    errors are not shown; it is logged, and the dialog "Failed to invite"
    shows the TypeError's message. *)
Theorem onRoomInviteFinished_unknown_room (roomId : string) addrs
    (states : list (string * string)) (k : string) :
  multiInvite roomId (map address addrs) = Js.Return (Resolved states) →
  getRoom roomId = None →
  k ∈ keys states →
  prop states k = Some "error" →
  onRoomInvite roomId true addrs =
  ([MultiInvite roomId (map address addrs);
    ConsoleError;
    errorDialog "Failed to invite" (_t "Failed to invite" [])
      (Some (errorText _t (ErrObj (Some typeErrorMessage))))],
   Js.Return tt).
Proof.
  intros Hinvite Hroom Hin Hp.
  unfold _onRoomInviteFinished, inviteMultipleToRoom. cbv zeta.
  rewrite Hinvite. simpl. rewrite Hroom.
  unfold _showAnyInviteErrors. cbv zeta.
  pose proof (InviteErrorFacts.failedUsersOf_member _ _ Hin Hp) as Hmem.
  destruct ((length (failedUsersOf states) =? 1)%nat &&
            fatal (inviterAfter roomId (map address addrs))); [done|].
  rewrite InviteErrorFacts.collectErrors_lines
    by apply InviteErrorFacts.failedUsersOf_error.
  simpl. destruct (failedUsersOf states) as [|k' l];
    [by apply elem_of_nil in Hmem|]. reflexivity.
Qed.

(** *** _onStartChatFinished *)

(** The selector on a user id: [null], or a candidate with a room and one
    of the four status labels. *)
Lemma selectDirectChat_cases (userId : string) :
  _selectDirectChat cli userId = Js.Return None ∨
  ∃ c r, _selectDirectChat cli userId = Js.Return (Some c) ∧
         room c = Some r ∧ ranked (status c) (weight c).
Proof.
  unfold _selectDirectChat, selectAmong. cbv zeta.
  set (L := _getDirectMessageRooms cli userId).
  destruct (forEachRoom_scanning L userId L (Some noCandidate)) as (s & -> & Hs).
  - intros r Hr. split; [exact Hr|].
    by apply (getDirectMessageRooms_has_target cli).
  - apply scanning_init.
  - simpl. destruct (finalSelection_scanning L s Hs) as [->|(c & -> & Hc)].
    + by left.
    + right. destruct Hc as (r & Hroom & _ & _ & Hrank). by exists c, r.
Qed.

Lemma selectDirectChatOf_cases (v : Js.value) :
  selectDirectChatOf cli v = Js.Return None ∨
  ∃ c r, selectDirectChatOf cli v = Js.Return (Some c) ∧
         room c = Some r ∧ ranked (status c) (weight c).
Proof.
  destruct v; simpl; try (by left). apply selectDirectChat_cases.
Qed.

(** Only the first picked address is used: the entries after it change
    nothing. *)
Theorem onStartChatFinished_first_address (shouldInvite : bool) a rest :
  onStartChat shouldInvite (a :: rest) = onStartChat shouldInvite [a].
Proof. reflexivity. Qed.

(** Nothing at all is done exactly when the dialog was dismissed or the
    first address is an unknown e-mail address; every other case makes at
    least one call. *)
Theorem onStartChatFinished_silent_iff (shouldInvite : bool) addrs :
  onStartChat shouldInvite addrs = [] ↔
  shouldInvite = false ∨
  ∃ a, head addrs = Some a ∧ isKnown a = Some false ∧ addressType a = "email".
Proof.
  unfold _onStartChatFinished. destruct shouldInvite; simpl.
  2: { split; [by left|done]. }
  destruct addrs as [|a rest]; simpl.
  { split; [done|]. intros [|(a & [=] & _)]; done. }
  destruct (isKnown a) as [[|]|] eqn:Hknown; simpl.
  - split; [done|]. intros [|(a' & [= <-] & Hk & _)]; [done|congruence].
  - destruct (addressType a =? "email") eqn:Hty; simpl.
    + apply String.eqb_eq in Hty. split; [|done]. intros _. right. by exists a.
    + apply String.eqb_neq in Hty. split; [done|].
      intros [|(a' & [= <-] & _ & Hty')]; done.
  - split; [done|]. intros [|(a' & [= <-] & Hk & _)]; [done|congruence].
Qed.

(** After a resolved lookup for a known address, a room is created exactly
    when the selector answers [null]; it is created for the address as
    typed, and then no room is viewed or joined and nobody is invited. *)
Theorem onStartChatFinished_creates_iff_null a rest res :
  isKnown a = Some true →
  lookupThreePid (addressType a) (address a) = Resolved res →
  (CreateRoom (address a) ∈ onStartChat true (a :: rest) ↔
   selectDirectChatOf cli (invitedUserIdOf (address a) res) = Js.Return None) ∧
  (selectDirectChatOf cli (invitedUserIdOf (address a) res) = Js.Return None →
   ∃ shown,
     onStartChat true (a :: rest) =
       LookupThreePid (addressType a) (address a) :: CreateRoom (address a) :: shown ∧
     (shown = [] ∨ ∃ err, createRoom (address a) = Failed err ∧
                          shown = [failedToInviteUser _t err])).
Proof.
  intros Hknown Hlookup.
  unfold _onStartChatFinished, onLookupSettled. simpl.
  rewrite Hknown, Hlookup. simpl. fold (invitedUserIdOf (address a) res).
  destruct (selectDirectChatOf_cases (invitedUserIdOf (address a) res))
    as [Hnull|(c & r & Hsel & Hroom & Hrank)].
  - rewrite Hnull. simpl. split.
    + split; [done|]. intros _. right. by left.
    + intros _. destruct (createRoom (address a)) as [[]|err|]; simpl.
      * exists []. split; [done|by left].
      * exists [failedToInviteUser _t err]. split; [done|]. right. by exists err.
      * exists []. split; [done|by left].
  - rewrite Hsel. simpl. split; [|done]. split; [|done].
    unfold startChatIn, selectedRoomId. cbv zeta. rewrite Hroom.
    destruct Hrank as [[-> _]|[[-> _]|[[-> _]|[-> _]]]]; simpl.
    + intros Hin. apply elem_of_cons in Hin as [Hin|Hin]; [discriminate Hin|].
      absent_from_list Hin.
    + intros Hin. apply elem_of_cons in Hin as [Hin|Hin]; [discriminate Hin|].
      destruct (joinRoom (roomId r)) as [[]|err|]; absent_from_list Hin.
    + intros Hin. apply elem_of_cons in Hin as [Hin|Hin]; [discriminate Hin|].
      absent_from_list Hin.
    + intros Hin. apply elem_of_cons in Hin as [Hin|Hin]; [discriminate Hin|].
      unfold _inviteToRoom in Hin.
      repeat case_bool_decide; simpl in Hin; absent_from_list Hin.
Qed.

(** A selected room in which both sides are joined, or in which the target
    is invited: after the lookup, the only call is the dispatch that views
    that room. *)
Theorem onStartChatFinished_views_existing a rest res c r :
  isKnown a = Some true →
  lookupThreePid (addressType a) (address a) = Resolved res →
  selectDirectChatOf cli (invitedUserIdOf (address a) res) = Js.Return (Some c) →
  room c = Some r →
  status c = Some "join-join" ∨ status c = Some "join-invite" →
  onStartChat true (a :: rest) =
  [LookupThreePid (addressType a) (address a); ViewRoom (roomId r)].
Proof.
  intros Hknown Hlookup Hsel Hroom Hstatus.
  unfold _onStartChatFinished, onLookupSettled. simpl.
  rewrite Hknown, Hlookup. simpl. fold (invitedUserIdOf (address a) res).
  rewrite Hsel. simpl. unfold startChatIn, selectedRoomId. cbv zeta.
  rewrite Hroom. by destruct Hstatus as [-> | ->].
Qed.

(** A selected room to which the caller is invited: the room is joined,
    and it is viewed exactly when the join succeeds; a failed join shows
    the dialog "Failed to join room" instead. *)
Theorem onStartChatFinished_joins_then_views a rest res c r :
  isKnown a = Some true →
  lookupThreePid (addressType a) (address a) = Resolved res →
  selectDirectChatOf cli (invitedUserIdOf (address a) res) = Js.Return (Some c) →
  room c = Some r →
  status c = Some "invite-join" →
  ∃ later,
    onStartChat true (a :: rest) =
      LookupThreePid (addressType a) (address a) :: JoinRoom (roomId r) :: later ∧
    (ViewRoom (roomId r) ∈ later ↔ ∃ u, joinRoom (roomId r) = Resolved u) ∧
    (∀ err, joinRoom (roomId r) = Failed err →
            later = [errorDialog "Failed to join room" (_t "Failed to join room" [])
                       (Some (errorText _t err))]).
Proof.
  intros Hknown Hlookup Hsel Hroom Hstatus.
  unfold _onStartChatFinished, onLookupSettled. simpl.
  rewrite Hknown, Hlookup. simpl. fold (invitedUserIdOf (address a) res).
  rewrite Hsel. simpl. unfold startChatIn, selectedRoomId. cbv zeta.
  rewrite Hroom, Hstatus. simpl. eexists. split; [reflexivity|].
  destruct (joinRoom (roomId r)) as [u|err|]; split.
  - split; [by exists u|]. intros _. by left.
  - intros err Herr. discriminate Herr.
  - split; [intros Hin; absent_from_list Hin|]. intros [u Hu]. discriminate Hu.
  - intros err' [= <-]. reflexivity.
  - split; [intros Hin; absent_from_list Hin|]. intros [u Hu]. discriminate Hu.
  - intros err Herr. discriminate Herr.
Qed.

(** A selected room that the target has left: the address as typed is
    invited again, by e-mail or by user id according to its type, and the
    room is viewed; an address of another type is not invited, the room is
    not viewed, and the dialog shows "Unsupported address". *)
Theorem onStartChatFinished_reinvites a rest res c r :
  isKnown a = Some true →
  lookupThreePid (addressType a) (address a) = Resolved res →
  selectDirectChatOf cli (invitedUserIdOf (address a) res) = Js.Return (Some c) →
  room c = Some r →
  status c = Some "join-leave" →
  (getAddressType (address a) = Some "email" →
   onStartChat true (a :: rest) =
   [LookupThreePid (addressType a) (address a);
    InviteByEmail (roomId r) (address a); ViewRoom (roomId r)]) ∧
  (getAddressType (address a) = Some "mx-user-id" →
   onStartChat true (a :: rest) =
   [LookupThreePid (addressType a) (address a);
    Invite (roomId r) (address a); ViewRoom (roomId r)]) ∧
  (getAddressType (address a) ≠ Some "email" →
   getAddressType (address a) ≠ Some "mx-user-id" →
   onStartChat true (a :: rest) =
   [LookupThreePid (addressType a) (address a);
    errorDialog "Failed to invite user" (_t "Failed to invite user" [])
      (Some "Unsupported address")]).
Proof.
  intros Hknown Hlookup Hsel Hroom Hstatus.
  unfold _onStartChatFinished, onLookupSettled. simpl.
  rewrite Hknown, Hlookup. simpl. fold (invitedUserIdOf (address a) res).
  rewrite Hsel. simpl. unfold startChatIn, selectedRoomId. cbv zeta.
  rewrite Hroom, Hstatus. simpl. unfold _inviteToRoom. cbv zeta.
  repeat split.
  - intros ->. reflexivity.
  - intros ->. reflexivity.
  - intros Hemail Hid. by rewrite !bool_decide_eq_false_2.
Qed.

End Facts.

End InviteFlowFacts.

(** ** The flows on the sample collaborators *)

Module InviteFlowSamples.

Import InviteFlows InviteFlowTerms FlowSamples.

Lemma showAnyInviteErrors_silent_sample :
  _showAnyInviteErrors plain roomId objectText allInvited None (inviterWith true) =
  Js.Return ([], allInvited).
Proof.
  apply (InviteErrorFacts.showAnyInviteErrors_silent plain roomId objectText
           allInvited None (inviterWith true)).
  intros k Hk. vm_compute in Hk.
  apply elem_of_cons in Hk as [->|Hk];
    [|apply list_elem_of_singleton in Hk as ->]; vm_compute; discriminate.
Defined.

Lemma showAnyInviteErrors_unknown_room_sample :
  _showAnyInviteErrors plain roomId objectText oneFailed None (inviterWith false) =
  Js.Throw TypeError.
Proof.
  apply (InviteErrorFacts.showAnyInviteErrors_unknown_room plain roomId objectText
           oneFailed (inviterWith false) Sample.carol).
  - vm_compute. right. left.
  - vm_compute. reflexivity.
Defined.

Lemma showAnyInviteErrors_lists_failures_sample :
  _showAnyInviteErrors plain roomId objectText twoFailed (Some Sample.joined)
    (inviterWith true) =
  Js.Return
    ([errorDialog "Failed to invite the following users to the room"
        "Failed to invite the following users to the %(roomName)s room:"
        (Some "@bob:example.org: Not allowed[object Object]@carol:example.org: User not found")],
     twoFailed).
Proof.
  apply (InviteErrorFacts.showAnyInviteErrors_lists_failures plain roomId objectText
           twoFailed Sample.joined (inviterWith true)).
  - vm_compute. repeat constructor; intros Hin; absent_from_list Hin.
  - vm_compute. discriminate.
  - left. vm_compute. lia.
Defined.

Lemma showAnyInviteErrors_fatal_sample :
  _showAnyInviteErrors plain roomId objectText oneFailed (Some Sample.joined)
    (inviterWith true) =
  Js.Return
    ([errorDialog "Failed to invite users to the room"
        "Failed to invite users to the room:" (Some "User not found")],
     oneFailed).
Proof.
  apply (InviteErrorFacts.showAnyInviteErrors_fatal plain roomId objectText
           oneFailed Sample.joined (inviterWith true) Sample.carol "error").
  - vm_compute. repeat constructor; intros Hin; absent_from_list Hin.
  - vm_compute. reflexivity.
  - reflexivity.
Defined.

Lemma onRoomInviteFinished_all_invited_sample :
  _onRoomInviteFinished plain roomId objectText typeErrorText noRoom
    (batch allInvited) (λ _ _, inviterWith false) "!joined:example.org" true
    [picked Sample.bob "mx-user-id" (Some true);
     picked Sample.carol "mx-user-id" (Some true)] =
  ([MultiInvite "!joined:example.org" [Sample.bob; Sample.carol]], Js.Return tt).
Proof.
  apply (InviteFlowFacts.onRoomInviteFinished_all_invited plain roomId objectText
           typeErrorText noRoom (batch allInvited) (λ _ _, inviterWith false)
           "!joined:example.org"
           [picked Sample.bob "mx-user-id" (Some true);
            picked Sample.carol "mx-user-id" (Some true)] allInvited).
  - reflexivity.
  - intros k Hk. vm_compute in Hk.
    apply elem_of_cons in Hk as [->|Hk];
      [|apply list_elem_of_singleton in Hk as ->]; vm_compute; discriminate.
Defined.

Lemma onRoomInviteFinished_unknown_room_sample :
  _onRoomInviteFinished plain roomId objectText typeErrorText noRoom
    (batch oneFailed) (λ _ _, inviterWith false) "!joined:example.org" true
    [picked Sample.bob "mx-user-id" (Some true);
     picked Sample.carol "mx-user-id" (Some true)] =
  ([MultiInvite "!joined:example.org" [Sample.bob; Sample.carol];
    ConsoleError;
    errorDialog "Failed to invite" "Failed to invite" (Some typeErrorText)],
   Js.Return tt).
Proof.
  apply (InviteFlowFacts.onRoomInviteFinished_unknown_room plain roomId objectText
           typeErrorText noRoom (batch oneFailed) (λ _ _, inviterWith false)
           "!joined:example.org"
           [picked Sample.bob "mx-user-id" (Some true);
            picked Sample.carol "mx-user-id" (Some true)] oneFailed Sample.carol).
  - reflexivity.
  - reflexivity.
  - vm_compute. right. left.
  - vm_compute. reflexivity.
Defined.

Lemma onStartChatFinished_creates_iff_null_sample :
  (CreateRoom "bob@example.org" ∈
     _onStartChatFinished plain Sample.addressType typeErrorText
       (Sample.clientWith [Sample.group]) noMatch succeeds succeeds true
       [picked "bob@example.org" "email" (Some true)] ↔
   selectDirectChatOf (Sample.clientWith [Sample.group])
     (invitedUserIdOf "bob@example.org" ∅) = Js.Return None) ∧
  (selectDirectChatOf (Sample.clientWith [Sample.group])
     (invitedUserIdOf "bob@example.org" ∅) = Js.Return None →
   ∃ shown,
     _onStartChatFinished plain Sample.addressType typeErrorText
       (Sample.clientWith [Sample.group]) noMatch succeeds succeeds true
       [picked "bob@example.org" "email" (Some true)] =
       LookupThreePid "email" "bob@example.org" :: CreateRoom "bob@example.org" :: shown ∧
     (shown = [] ∨ ∃ err, succeeds "bob@example.org" = Failed err ∧
                          shown = [failedToInviteUser plain err])).
Proof.
  apply (InviteFlowFacts.onStartChatFinished_creates_iff_null plain
           Sample.addressType typeErrorText (Sample.clientWith [Sample.group])
           noMatch succeeds succeeds
           (picked "bob@example.org" "email" (Some true)) [] ∅);
    reflexivity.
Defined.

Lemma onStartChatFinished_views_existing_sample :
  _onStartChatFinished plain Sample.addressType typeErrorText
    (Sample.clientWith [Sample.group; Sample.joined]) findsBob succeeds succeeds true
    [picked "bob@example.org" "email" (Some true)] =
  [LookupThreePid "email" "bob@example.org"; ViewRoom "!joined:example.org"].
Proof.
  apply (InviteFlowFacts.onStartChatFinished_views_existing plain
           Sample.addressType typeErrorText
           (Sample.clientWith [Sample.group; Sample.joined]) findsBob succeeds
           succeeds (picked "bob@example.org" "email" (Some true)) []
           (bobRecord "email" "bob@example.org")
           (joinJoinCandidate Sample.joined) Sample.joined).
  - reflexivity.
  - reflexivity.
  - vm_compute. reflexivity.
  - reflexivity.
  - left. reflexivity.
Defined.

Lemma onStartChatFinished_joins_then_views_sample :
  ∃ later,
    _onStartChatFinished plain Sample.addressType typeErrorText
      (Sample.clientWith [invitedByBob]) findsBob succeeds succeeds true
      [picked "bob@example.org" "email" (Some true)] =
      LookupThreePid "email" "bob@example.org" ::
      JoinRoom "!invited:example.org" :: later ∧
    (ViewRoom "!invited:example.org" ∈ later ↔
     ∃ u, succeeds "!invited:example.org" = Resolved u) ∧
    (∀ err, succeeds "!invited:example.org" = Failed err →
            later = [errorDialog "Failed to join room" "Failed to join room"
                       (Some (errorText plain err))]).
Proof.
  apply (InviteFlowFacts.onStartChatFinished_joins_then_views plain
           Sample.addressType typeErrorText (Sample.clientWith [invitedByBob])
           findsBob succeeds succeeds
           (picked "bob@example.org" "email" (Some true)) []
           (bobRecord "email" "bob@example.org")
           (candidateOf Sample.bob invitedByBob) invitedByBob).
  - reflexivity.
  - reflexivity.
  - vm_compute. reflexivity.
  - reflexivity.
  - vm_compute. reflexivity.
Defined.

Lemma onStartChatFinished_reinvites_sample :
  _onStartChatFinished plain Sample.addressType typeErrorText
    (Sample.clientWith [bobLeft]) findsBob succeeds succeeds true
    [picked "bob@example.org" "email" (Some true)] =
  [LookupThreePid "email" "bob@example.org";
   InviteByEmail "!gone:example.org" "bob@example.org";
   ViewRoom "!gone:example.org"].
Proof.
  apply (InviteFlowFacts.onStartChatFinished_reinvites plain
           Sample.addressType typeErrorText (Sample.clientWith [bobLeft])
           findsBob succeeds succeeds
           (picked "bob@example.org" "email" (Some true)) []
           (bobRecord "email" "bob@example.org")
           (candidateOf Sample.bob bobLeft) bobLeft).
  - reflexivity.
  - reflexivity.
  - vm_compute. reflexivity.
  - reflexivity.
  - vm_compute. reflexivity.
  - reflexivity.
Defined.

End InviteFlowSamples.

(** ** More on the filter of _getDirectMessageRooms *)

Section DirectMessageRoomPairs.

(** For a target other than the caller, the rooms kept are the client's
    rooms whose member dictionary has exactly the two of them as keys. *)
Theorem getDirectMessageRooms_exact_pair (cli : MatrixClient) (addr : string)
    (r : Room) :
  getUserId cli ≠ addr →
  r ∈ _getDirectMessageRooms cli addr ↔
  r ∈ getRooms cli ∧
  dom (members (currentState r)) = ({[addr; getUserId cli]} : gset string).
Proof.
  intros Hne. rewrite getDirectMessageRooms_member.
  by rewrite (isDirectMessageRoom_pair _ _ _ Hne).
Qed.

(** The filter does not tell the caller from the target: over the same
    rooms, exchanging the two gives the same list. *)
Theorem getDirectMessageRooms_symmetric (rooms : list Room) (me him : string) :
  _getDirectMessageRooms {| getUserId := me; getRooms := rooms |} him =
  _getDirectMessageRooms {| getUserId := him; getRooms := rooms |} me.
Proof.
  unfold _getDirectMessageRooms. simpl. apply filter_ext. intros r.
  unfold isDirectMessageRoom. cbv zeta.
  destruct (length (userIds r) =? 2)%nat; simpl; [|done].
  by destruct (includes (userIds r) him), (includes (userIds r) me).
Qed.

Lemma getDirectMessageRooms_exact_pair_sample :
  Sample.joined ∈ _getDirectMessageRooms
                    (Sample.clientWith [Sample.group; Sample.joined]) Sample.bob ↔
  Sample.joined ∈ getRooms (Sample.clientWith [Sample.group; Sample.joined]) ∧
  dom (members (currentState Sample.joined)) =
    ({[Sample.bob; getUserId (Sample.clientWith [Sample.group; Sample.joined])]}
       : gset string).
Proof.
  apply (getDirectMessageRooms_exact_pair
           (Sample.clientWith [Sample.group; Sample.joined]) Sample.bob
           Sample.joined).
  vm_compute. discriminate.
Defined.

End DirectMessageRoomPairs.

(** ** Two-party rooms and a target that is the caller *)

Section ExactPairs.

Implicit Types (r : Room) (cli : MatrixClient) (addr userId : string).

(** No room is an exact pair of a user with themselves: one key cannot
    make two entries. *)
Lemma exactPair_self_absurd (u : string) r : ¬ exactPair u u r.
Proof.
  intros [Hsize Hdom]. rewrite <- size_dom, Hdom in Hsize.
  assert (({[u; u]} : gset string) = {[u]}) as Heq.
  { apply set_eq. intros x. rewrite elem_of_union, !elem_of_singleton. tauto. }
  rewrite Heq, size_singleton in Hsize. discriminate Hsize.
Qed.

Lemma isDirectMessageRoom_exactPair me addr r :
  me ≠ addr →
  isDirectMessageRoom me addr r = true ↔ exactPair addr me r.
Proof.
  intros Hne. unfold exactPair. split.
  - intros Hkept. split.
    + by apply isDirectMessageRoom_true in Hkept as [Hsize _].
    + by apply isDirectMessageRoom_pair.
  - intros [_ Hdom]. by apply isDirectMessageRoom_pair.
Qed.

(** C7: a room of three or more members never passes the filter, whatever
    the membership states of its members; and for a target other than the
    caller, the rooms that pass are exactly the client's rooms with two
    member entries, one the target and the other the caller. *)
Theorem getDirectMessageRooms_exact_two_party cli addr r :
  (3 ≤ size (members (currentState r)) → r ∉ _getDirectMessageRooms cli addr)%nat ∧
  (getUserId cli ≠ addr →
   r ∈ _getDirectMessageRooms cli addr ↔
   r ∈ getRooms cli ∧ exactPair addr (getUserId cli) r).
Proof.
  rewrite getDirectMessageRooms_member. split.
  - intros Hthree [_ Hkept]. apply isDirectMessageRoom_true in Hkept as [Htwo _].
    lia.
  - intros Hne. by rewrite (isDirectMessageRoom_exactPair _ _ _ Hne).
Qed.

(** C5: for a target other than the caller, when no room of the client has
    exactly two member entries, one the target and the other the caller,
    _selectDirectChat returns [null]. *)
Theorem selectDirectChat_null_without_pair cli userId :
  getUserId cli ≠ userId →
  (∀ r, r ∈ getRooms cli → ¬ exactPair userId (getUserId cli) r) →
  _selectDirectChat cli userId = Js.Return None.
Proof.
  intros Hne Hnone. unfold _selectDirectChat. cbv zeta.
  destruct (_getDirectMessageRooms cli userId) as [|r l] eqn:Hfilter; [done|].
  exfalso. assert (Hr : r ∈ _getDirectMessageRooms cli userId).
  { rewrite Hfilter. by left. }
  apply getDirectMessageRooms_member in Hr as [Hin Hkept].
  apply (isDirectMessageRoom_exactPair _ _ _ Hne) in Hkept.
  exact (Hnone r Hin Hkept).
Qed.

End ExactPairs.

Section ExactPairSamples.

Import Sample PairSamples.

Lemma getDirectMessageRooms_exact_two_party_sample :
  (group ∉ _getDirectMessageRooms (clientWith [group; joined]) bob) ∧
  (joined ∈ _getDirectMessageRooms (clientWith [group; joined]) bob ↔
   joined ∈ getRooms (clientWith [group; joined]) ∧
   exactPair bob (getUserId (clientWith [group; joined])) joined).
Proof.
  split.
  - apply (getDirectMessageRooms_exact_two_party (clientWith [group; joined]) bob group).
    vm_compute. lia.
  - apply (getDirectMessageRooms_exact_two_party (clientWith [group; joined]) bob joined).
    vm_compute. discriminate.
Defined.

Lemma selectDirectChat_null_without_pair_sample :
  _selectDirectChat (clientWith [group; withCarol]) bob = Js.Return None.
Proof.
  apply (selectDirectChat_null_without_pair (clientWith [group; withCarol]) bob).
  - vm_compute. discriminate.
  - intros r Hr [Hsize Hdom].
    apply elem_of_cons in Hr as [->|Hr];
      [|apply list_elem_of_singleton in Hr as ->].
    + vm_compute in Hsize. discriminate Hsize.
    + assert (Hbob : bob ∈ dom (members (currentState withCarol))).
      { rewrite Hdom. apply elem_of_union. left. by apply elem_of_singleton. }
      apply elem_of_dom in Hbob as [m Hm]. vm_compute in Hm. discriminate Hm.
Defined.

(** Alice looks herself up: the room she shares with carol has two member
    entries and her own key passes both [includes] tests, so the filter
    keeps it, although it is no pair of the target with the caller. *)
Lemma getDirectMessageRooms_self_target_keeps_room :
  getUserId (clientWith [withCarol]) = alice ∧
  withCarol ∈ _getDirectMessageRooms (clientWith [withCarol]) alice ∧
  ¬ exactPair alice (getUserId (clientWith [withCarol])) withCarol.
Proof.
  split; [reflexivity|]. split.
  - vm_compute. left.
  - apply exactPair_self_absurd.
Qed.

(** Alice looks herself up: no room of hers is a pair of the target with
    the caller, and yet the selector answers the room she shares with
    carol, ranked join-join on her own entry. *)
Lemma selectDirectChat_self_target_returns_room :
  (∀ r, r ∈ getRooms (clientWith [withCarol]) →
        ¬ exactPair alice (getUserId (clientWith [withCarol])) r) ∧
  _selectDirectChat (clientWith [withCarol]) alice =
    Js.Return (Some {| room := Some withCarol; status := Some "join-join";
                       date := Some 400%Z; weight := 4 |}) ∧
  _selectDirectChat (clientWith [withCarol]) alice ≠ Js.Return None.
Proof.
  split; [intros r _; apply exactPair_self_absurd|].
  split; [vm_compute; reflexivity|]. vm_compute. discriminate.
Qed.

End ExactPairSamples.
